(** * Form validation (routes/index.tsx): a shallow embedding and its properties

    The component is one form with two text inputs, [name] and [year], whose
    [input] handlers call the Constraint Validation API, and a [submit]
    handler that re-validates both inputs and logs the parsed record.

    The file has these layers:
    - [JS]: the pieces of the JavaScript platform the handlers call
      (UTF-16 strings, [String.prototype.trim], regular expressions,
      [Number] on strings with binary64 results, [isNaN], [<]);
    - [Dom]: the state of the rendered form;
    - [Component]: the handlers of index.tsx as state transformers, and the
      actions of a user;
    - [Lazy]: the same handlers with the runs of the lazy ones deferred;
    - [Spec]: the validation rules in the words of the specification;
    - facts about the platform and the handlers, and the properties. *)

From Stdlib Require Import ZArith NArith PArith List Bool Ascii String Lia.
From Stdlib Require Import Floats.SpecFloat.
Import ListNotations.

(* ================================================================== *)
(** * The JavaScript platform *)
(* ================================================================== *)

Module JS.

(** ** Strings: sequences of UTF-16 code units *)

Definition jsstring := list N.

(** An ASCII literal of the source as a [jsstring]. *)
Definition lit (s : string) : jsstring :=
  List.map N_of_ascii (list_ascii_of_string s).

Definition cu (a : ascii) : N := N_of_ascii a.

(** [===] on strings. *)
Fixpoint streq (a b : jsstring) : bool :=
  match a, b with
  | [], [] => true
  | x :: a', y :: b' => N.eqb x y && streq a' b'
  | _, _ => false
  end.

Definition isEmpty (s : jsstring) : bool :=
  match s with [] => true | _ :: _ => false end.

(** ** Scalar-value strings

    The conversion that Web IDL applies to a string handed to an API that
    takes a USVString: a lead surrogate followed by a trail surrogate is
    kept as a pair, every other surrogate code unit becomes U+FFFD. *)

Definition isLeadSurrogate (c : N) : bool := N.leb 55296 c && N.leb c 56319.
Definition isTrailSurrogate (c : N) : bool := N.leb 56320 c && N.leb c 57343.

Fixpoint toScalarValueString (s : jsstring) : jsstring :=
  match s with
  | [] => []
  | c :: r =>
      if isLeadSurrogate c then
        match r with
        | d :: r' =>
            if isTrailSurrogate d then c :: d :: toScalarValueString r'
            else 65533%N :: toScalarValueString r
        | [] => [65533%N]
        end
      else if isTrailSurrogate c then 65533%N :: toScalarValueString r
      else c :: toScalarValueString r
  end.

(** ** [String.prototype.trim]

    It removes WhiteSpace and LineTerminator code points from both ends:
    TAB, LF, VT, FF, CR, SP, NBSP, U+1680, U+2000..U+200A, U+2028, U+2029,
    U+202F, U+205F, U+3000 and U+FEFF. *)

Definition isLineTerminator (c : N) : bool :=
  N.eqb c 10 || N.eqb c 13 || N.eqb c 8232 || N.eqb c 8233.

Definition isWhiteSpace (c : N) : bool :=
  N.eqb c 9 || N.eqb c 11 || N.eqb c 12 || N.eqb c 32 || N.eqb c 160
  || N.eqb c 5760 || (N.leb 8192 c && N.leb c 8202)
  || N.eqb c 8239 || N.eqb c 8287 || N.eqb c 12288 || N.eqb c 65279.

Definition isStrWhiteSpaceChar (c : N) : bool :=
  isWhiteSpace c || isLineTerminator c.

Fixpoint trimStart (s : jsstring) : jsstring :=
  match s with
  | [] => []
  | c :: r => if isStrWhiteSpaceChar c then trimStart r else s
  end.

Definition trimEnd (s : jsstring) : jsstring := rev (trimStart (rev s)).

Definition trim (s : jsstring) : jsstring := trimEnd (trimStart s).

(** ** Regular expressions

    The fragment the component uses: the assertions [^] and [$] (no [m]
    flag, so they hold at the two ends of the input only), one-character
    atoms, and the greedy quantifiers [*] and [+] over such an atom.  No
    flag is set: [.] excludes the four line terminators, [\d] is [0-9]. *)

Inductive term : Type :=
| AssertStart                    (* ^ *)
| AssertEnd                      (* $ *)
| Atom (cls : N -> bool)         (* one character of a class *)
| Star (cls : N -> bool)         (* cls* *)
| Plus (cls : N -> bool).        (* cls+ *)

Definition pattern := list term.

Definition upperAZ (c : N) : bool := N.leb 65 c && N.leb c 90.   (* [A-Z] *)
Definition digit (c : N) : bool := N.leb 48 c && N.leb c 57.     (* \d *)
Definition dot (c : N) : bool := negb (isLineTerminator c).       (* . *)

(** [matchTerms p atStart s]: the pattern [p] matches some prefix of the
    rest [s] of the input; [atStart] tells whether [s] is the whole input. *)
Fixpoint matchTerms (p : pattern) (atStart : bool) (s : jsstring) : bool :=
  match p with
  | [] => true
  | AssertStart :: p' => atStart && matchTerms p' atStart s
  | AssertEnd :: p' => isEmpty s && matchTerms p' atStart s
  | Atom cls :: p' =>
      match s with
      | c :: r => cls c && matchTerms p' false r
      | [] => false
      end
  | Star cls :: p' =>
      (fix loop (s : jsstring) (atStart : bool) : bool :=
         match s with
         | c :: r => (cls c && loop r false) || matchTerms p' atStart s
         | [] => matchTerms p' atStart []
         end) s atStart
  | Plus cls :: p' =>
      match s with
      | c :: r =>
          cls c &&
          (fix loop (s : jsstring) : bool :=
             match s with
             | c :: r => (cls c && loop r) || matchTerms p' false s
             | [] => matchTerms p' false []
             end) r
      | [] => false
      end
  end.

(** A regular expression without the [g] flag is tried at every start
    index, from 0 on. *)
Fixpoint searchFrom (p : pattern) (atStart : bool) (s : jsstring) : bool :=
  matchTerms p atStart s ||
  match s with
  | _ :: r => searchFrom p false r
  | [] => false
  end.

(** [s.match(re)] is non-null. *)
Definition matches (s : jsstring) (re : pattern) : bool := searchFrom re true s.

(** ** Numbers: IEEE 754 binary64 *)

Definition prec : Z := 53.
Definition emax : Z := 1024.

Definition number := spec_float.

Definition isNaN (x : number) : bool :=
  match x with S754_nan => true | _ => false end.

(** [x < y]; false when either side is NaN. *)
Definition lt (x y : number) : bool := SFltb x y.

(** The Number value of a non-negative integer (round to nearest, ties to
    even; infinity on overflow). *)
Definition ofN (n : N) : number := binary_normalize prec emax (Z.of_N n) 0 false.

(** ** [Number(string)]: StringToNumber

    StringNumericLiteral ::: StrWhiteSpace? (StrNumericLiteral StrWhiteSpace?)?
    The empty literal is +0, a text outside the grammar is NaN. *)

Fixpoint span (p : N -> bool) (s : jsstring) : jsstring * jsstring :=
  match s with
  | c :: r => if p c then let '(a, b) := span p r in (c :: a, b) else ([], s)
  | [] => ([], [])
  end.

(** The mathematical value of a sequence of digits in base [b]. *)
Definition digitValue (c : N) : N :=
  if digit c then c - 48
  else if N.leb 97 c then c - 87     (* a-f *)
  else c - 55.                       (* A-F *)

Definition digitsMV (b : N) (ds : jsstring) : N :=
  fold_left (fun acc c => b * acc + digitValue c)%N ds 0%N.

Definition isDigitOf (b : N) (c : N) : bool :=
  (digit c || (N.leb 97 c && N.leb c 102) || (N.leb 65 c && N.leb c 70))
  && N.ltb (digitValue c) b.

(** NonDecimalIntegerLiteral: 0b, 0o, 0x (either case) and digits. *)
Definition NonDecimalIntegerLiteral (s : jsstring) : option N :=
  match s with
  | z :: x :: ds =>
      let base :=
        if negb (N.eqb z (cu "0")) then None
        else if N.eqb x (cu "b") || N.eqb x (cu "B") then Some 2
        else if N.eqb x (cu "o") || N.eqb x (cu "O") then Some 8
        else if N.eqb x (cu "x") || N.eqb x (cu "X") then Some 16
        else None in
      match base with
      | Some b =>
          if negb (isEmpty ds) && forallb (isDigitOf b) ds
          then Some (digitsMV b ds) else None
      | None => None
      end
  | _ => None
  end%N.

(** SignedInteger ::: DecimalDigits | + DecimalDigits | - DecimalDigits *)
Definition SignedInteger (s : jsstring) : option Z :=
  let '(neg, ds) :=
    match s with
    | c :: r =>
        if N.eqb c (cu "+") then (false, r)
        else if N.eqb c (cu "-") then (true, r)
        else (false, s)
    | [] => (false, [])
    end in
  if negb (isEmpty ds) && forallb digit ds
  then Some (if neg then - Z.of_N (digitsMV 10 ds) else Z.of_N (digitsMV 10 ds))%Z
  else None.

(** What is left after the digits: nothing, or an ExponentPart. *)
Definition ExponentPart (s : jsstring) : option Z :=
  match s with
  | [] => Some 0%Z
  | c :: r =>
      if N.eqb c (cu "e") || N.eqb c (cu "E") then SignedInteger r else None
  end.

(** The value of a StrUnsignedDecimalLiteral: Infinity, or [m * 10^e]. *)
Inductive MV : Type :=
| MVInfinity
| MVDecimal (m : N) (e : Z).

(** The rest of the text after a decimal point, if it starts with one. *)
Definition afterDot (s : jsstring) : option jsstring :=
  match s with
  | c :: r => if N.eqb c (cu ".") then Some r else None
  | [] => None
  end.

Definition StrUnsignedDecimalLiteral (s : jsstring) : option MV :=
  if streq s (lit "Infinity") then Some MVInfinity
  else
    let '(ip, r1) := span digit s in
    match afterDot r1 with
    | Some r =>
        let '(fp, r2) := span digit r in
        if isEmpty ip && isEmpty fp then None
        else
          match ExponentPart r2 with
          | Some e =>
              Some (MVDecimal (digitsMV 10 (ip ++ fp))
                              (e - Z.of_nat (List.length fp)))
          | None => None
          end
    | None =>
        if isEmpty ip then None
        else
          match ExponentPart r1 with
          | Some e => Some (MVDecimal (digitsMV 10 ip) e)
          | None => None
          end
    end.

(** The Number value of [(-1)^neg * m * 10^e], correctly rounded (the
    choice of the engines in use; the standard leaves the digits after the
    twentieth to the implementation). *)
Definition RoundMV (neg : bool) (m : N) (e : Z) : number :=
  match m with
  | N0 => S754_zero neg
  | Npos p =>
      match e with
      | Z0 => binary_round prec emax neg p 0
      | Zpos k => binary_round prec emax neg (p * Pos.pow 10 k) 0
      | Zneg k =>
          let '(q, e', l) :=
            SFdiv_core_binary prec emax (Zpos p) 0 (Zpos (Pos.pow 10 k)) 0 in
          binary_round_aux prec emax neg q e' l
      end
  end.

(** StrDecimalLiteral: an optional sign and an unsigned literal. *)
Definition StrDecimalLiteral (s : jsstring) : number :=
  let '(neg, u) :=
    match s with
    | c :: r =>
        if N.eqb c (cu "+") then (false, r)
        else if N.eqb c (cu "-") then (true, r)
        else (false, s)
    | [] => (false, [])
    end in
  match StrUnsignedDecimalLiteral u with
  | Some MVInfinity => S754_infinity neg
  | Some (MVDecimal m e) => RoundMV neg m e
  | None => S754_nan
  end.

Definition Number (s : jsstring) : number :=
  let t := trim s in
  if isEmpty t then S754_zero false
  else
    match NonDecimalIntegerLiteral t with
    | Some n => ofN n
    | None => StrDecimalLiteral t
    end.

End JS.

Import JS.

(* ================================================================== *)
(** * The rendered form *)
(* ================================================================== *)

Module Dom.

(** The two [<input>] elements of the form, in document order. *)
Inductive field : Type := FName | FYear.

Inductive eventType : Type := EInput | EInvalid.

(** An [<input type="text">]: its value and its custom validity message
    (what [setCustomValidity] stores and [validationMessage] returns; the
    inputs carry no other constraint, so the element is [:invalid] exactly
    when the message is not empty). *)
Record HTMLInputElement : Type := mkInput {
  value : jsstring;
  validationMessage : jsstring
}.

(** The object that [onSubmit$] passes to [console.log]. *)
Record submission : Type := mkSubmission {
  name : jsstring;
  year : number
}.

(** The form: the [data-was-submitted] attribute, the two inputs, the text
    of the [<span>] after each, the console, and the events dispatched at
    the inputs so far (oldest first). *)
Record Form : Type := mkForm {
  wasSubmitted : bool;
  nameInput : HTMLInputElement;
  nameSpan : jsstring;
  yearInput : HTMLInputElement;
  yearSpan : jsstring;
  console : list submission;
  dispatched : list (field * eventType)
}.

Definition input (t : field) (F : Form) : HTMLInputElement :=
  match t with FName => nameInput F | FYear => yearInput F end.

Definition nextElementSibling_textContent (t : field) (F : Form) : jsstring :=
  match t with FName => nameSpan F | FYear => yearSpan F end.

Definition setInput (t : field) (i : HTMLInputElement) (F : Form) : Form :=
  match t with
  | FName => mkForm (wasSubmitted F) i (nameSpan F) (yearInput F) (yearSpan F)
                    (console F) (dispatched F)
  | FYear => mkForm (wasSubmitted F) (nameInput F) (nameSpan F) i (yearSpan F)
                    (console F) (dispatched F)
  end.

Definition setValue (t : field) (v : jsstring) (F : Form) : Form :=
  setInput t (mkInput v (validationMessage (input t F))) F.

Definition setCustomValidity (t : field) (msg : jsstring) (F : Form) : Form :=
  setInput t (mkInput (value (input t F)) msg) F.

Definition set_textContent (t : field) (s : jsstring) (F : Form) : Form :=
  match t with
  | FName => mkForm (wasSubmitted F) (nameInput F) s (yearInput F) (yearSpan F)
                    (console F) (dispatched F)
  | FYear => mkForm (wasSubmitted F) (nameInput F) (nameSpan F) (yearInput F) s
                    (console F) (dispatched F)
  end.

(** [formElement.setAttribute("data-was-submitted", "")] *)
Definition setAttribute_wasSubmitted (F : Form) : Form :=
  mkForm true (nameInput F) (nameSpan F) (yearInput F) (yearSpan F)
         (console F) (dispatched F).

Definition console_log (r : submission) (F : Form) : Form :=
  mkForm (wasSubmitted F) (nameInput F) (nameSpan F) (yearInput F) (yearSpan F)
         (console F ++ [r]) (dispatched F).

Definition record (t : field) (e : eventType) (F : Form) : Form :=
  mkForm (wasSubmitted F) (nameInput F) (nameSpan F) (yearInput F) (yearSpan F)
         (console F) (dispatched F ++ [(t, e)]).

(** The element satisfies its constraints. *)
Definition valid (t : field) (F : Form) : bool :=
  isEmpty (validationMessage (input t F)).

(** [new FormData(form)]: one entry per named control, in document order
    (the submit button has no name).  An entry holds the control's value
    converted to a scalar-value string. *)
Definition FormData (F : Form) : list (jsstring * jsstring) :=
  [(lit "name", toScalarValueString (value (nameInput F)));
   (lit "year", toScalarValueString (value (yearInput F)))].

(** [FormData.prototype.get]: the first value under the key, or null. *)
Fixpoint get (entries : list (jsstring * jsstring)) (key : jsstring)
  : option jsstring :=
  match entries with
  | [] => None
  | (k, v) :: rest => if streq k key then Some v else get rest key
  end.

(** [x === s] for [x] a string or null. *)
Definition strict_eq (x : option jsstring) (s : jsstring) : bool :=
  match x with Some v => streq v s | None => false end.

(** What the page shows under an input: the span is visible exactly while
    its input is [:invalid] (the [peer-invalid:visible] class). *)
Definition displayed (t : field) (F : Form) : option jsstring :=
  if valid t F then None else Some (nextElementSibling_textContent t F).

(** The form as first rendered. *)
Definition initial : Form :=
  mkForm false (mkInput [] []) [160%N] (mkInput [] []) [160%N] [] [].

End Dom.

Import Dom.

(* ================================================================== *)
(** * The component: the handlers of index.tsx *)
(* ================================================================== *)

Module Component.

(** The two regular expressions of the source. *)
Definition re_name : pattern := [AssertStart; Atom upperAZ; Star dot; AssertEnd].
Definition re_year : pattern := [AssertStart; Plus digit; AssertEnd].

Definition msg_invalid : jsstring := lit "Field is invalid".
Definition msg_required : jsstring := lit "Field is required".
Definition msg_number : jsstring := lit "Field must be a number".
Definition msg_min : jsstring := lit "Number must be greater or equal than 2000".
Definition msg_newborn : jsstring := lit "Newborn can not be born before 2024".

(** [onInvalid$] (the same on both inputs):
    [target.nextElementSibling!.textContent = target.validationMessage]. *)
Definition onInvalid (target : field) (F : Form) : Form :=
  set_textContent target (validationMessage (input target F)) F.

(** The browser fires [invalid] at an element; the handler runs.  (Here
    it runs inside the dispatch, as a handler attached to the element
    does.  [onInvalid$] is a lazy handler; [Lazy] below defers its runs.) *)
Definition fireInvalid (target : field) (F : Form) : Form :=
  onInvalid target (record target EInvalid F).

(** [target.reportValidity()]: fires [invalid] at an element that does not
    satisfy its constraints ([preventdefault:invalid] cancels the popup). *)
Definition reportValidity (target : field) (F : Form) : Form :=
  if valid target F then F else fireInvalid target F.

(** [formElement.checkValidity()]: collects the invalid controls, fires
    [invalid] at each, and answers whether there was none. *)
Definition checkValidity (F : Form) : bool * Form :=
  let invalidControls := filter (fun t => negb (valid t F)) [FName; FYear] in
  (match invalidControls with [] => true | _ :: _ => false end,
   fold_left (fun G t => fireInvalid t G) invalidControls F).

(** [onInput$] of the year input. *)
Definition year_onInput (F : Form) : Form :=
  let target := FYear in
  if negb (wasSubmitted F) then F
  else
    let v := value (input target F) in
    if Nat.eqb (List.length (trim v)) 0 then
      reportValidity target (setCustomValidity target msg_required F)
    else if negb (matches v re_year) || isNaN (Number v) then
      reportValidity target (setCustomValidity target msg_number F)
    else if lt (Number v) (ofN 2000) then
      reportValidity target (setCustomValidity target msg_min F)
    else if strict_eq (get (FormData F) (lit "name")) (lit "Newborn")
            && lt (Number v) (ofN 2024) then
      reportValidity target (setCustomValidity target msg_newborn F)
    else
      reportValidity target (setCustomValidity target [] F).

(** [element.dispatchEvent(new Event("input"))] at the year input. *)
Definition dispatchInput_year (F : Form) : Form :=
  year_onInput (record FYear EInput F).

(** [onInput$] of the name input. *)
Definition name_onInput (F : Form) : Form :=
  let target := FName in
  if negb (wasSubmitted F) then F
  else
    let v := value (input target F) in
    let F1 :=
      if Nat.eqb (List.length (trim v)) 0 || negb (matches v re_name) then
        reportValidity target (setCustomValidity target msg_invalid F)
      else
        reportValidity target (setCustomValidity target [] F) in
    dispatchInput_year F1.

(** [element.dispatchEvent(new Event("input"))] at either input. *)
Definition dispatchInput (t : field) (F : Form) : Form :=
  match t with
  | FName => name_onInput (record FName EInput F)
  | FYear => dispatchInput_year F
  end.

(** [formElement.querySelectorAll("input")] *)
Definition querySelectorAll_input : list field := [FName; FYear].

(** [onSubmit$] of the form. *)
Definition onSubmit (F : Form) : Form :=
  let F1 := setAttribute_wasSubmitted F in
  let F2 := fold_left (fun G i => dispatchInput i G) querySelectorAll_input F1 in
  let '(ok, F3) := checkValidity F2 in
  if negb ok then F3
  else
    let data := FormData F3 in
    match get data (lit "name"), get data (lit "year") with
    | Some n, Some y => console_log (mkSubmission n (Number y)) F3
    | _, _ => F3              (* not reached: both entries are there *)
    end.

(** ** What the user does

    Typing into an input changes its value and fires [input] at it.
    Pressing the button starts a submission: the browser first validates
    the form interactively, and fires [submit] only when every control
    satisfies its constraints; otherwise it fires [invalid] at the invalid
    controls and stops. *)
Inductive action : Type :=
| Edit (t : field) (v : jsstring)
| Submit.

Definition step (F : Form) (a : action) : Form :=
  match a with
  | Edit t v => dispatchInput t (setValue t v F)
  | Submit =>
      let '(ok, F1) := checkValidity F in
      if ok then onSubmit F1 else F1
  end.

Definition run (F : Form) (l : list action) : Form := fold_left step l F.

Definition isSubmit (a : action) : bool :=
  match a with Submit => true | Edit _ _ => false end.

End Component.

Import Component.

(* ================================================================== *)
(** * The component with its lazy handlers deferred *)
(* ================================================================== *)

(** Of the handlers of index.tsx only the two [onInput$] are [sync$]: they
    run inside the dispatch of their event.  [onInvalid$] and [onSubmit$]
    are lazy: their event schedules a run of the handler, the run happens
    later, and the handler sees the page as it is by then.  [Component]
    runs every handler inside the dispatch; this module keeps the scheduled
    runs in the state and lets them happen at any later moment, in any
    order. *)
Module Lazy.

Inductive handlerRun : Type :=
| RunOnInvalid (target : field)
| RunOnSubmit.

Record Page : Type := mkPage {
  form : Form;
  scheduled : list handlerRun
}.

Definition onForm (f : Form -> Form) (P : Page) : Page :=
  mkPage (f (form P)) (scheduled P).

Definition schedule (r : handlerRun) (P : Page) : Page :=
  mkPage (form P) (scheduled P ++ [r]).

(** The browser fires [invalid] at an element: a run of [onInvalid$] is
    scheduled. *)
Definition fireInvalid (target : field) (P : Page) : Page :=
  schedule (RunOnInvalid target) (onForm (record target EInvalid) P).

Definition reportValidity (target : field) (P : Page) : Page :=
  if valid target (form P) then P else fireInvalid target P.

Definition checkValidity (P : Page) : bool * Page :=
  let invalidControls :=
    filter (fun t => negb (valid t (form P))) [FName; FYear] in
  (match invalidControls with [] => true | _ :: _ => false end,
   fold_left (fun Q t => fireInvalid t Q) invalidControls P).

(** [onInput$] of the year input ([sync$]). *)
Definition year_onInput (P : Page) : Page :=
  let target := FYear in
  if negb (wasSubmitted (form P)) then P
  else
    let v := value (input target (form P)) in
    if Nat.eqb (List.length (trim v)) 0 then
      reportValidity target (onForm (setCustomValidity target msg_required) P)
    else if negb (matches v re_year) || isNaN (Number v) then
      reportValidity target (onForm (setCustomValidity target msg_number) P)
    else if lt (Number v) (ofN 2000) then
      reportValidity target (onForm (setCustomValidity target msg_min) P)
    else if strict_eq (get (FormData (form P)) (lit "name")) (lit "Newborn")
            && lt (Number v) (ofN 2024) then
      reportValidity target (onForm (setCustomValidity target msg_newborn) P)
    else
      reportValidity target (onForm (setCustomValidity target []) P).

Definition dispatchInput_year (P : Page) : Page :=
  year_onInput (onForm (record FYear EInput) P).

(** [onInput$] of the name input ([sync$]). *)
Definition name_onInput (P : Page) : Page :=
  let target := FName in
  if negb (wasSubmitted (form P)) then P
  else
    let v := value (input target (form P)) in
    let P1 :=
      if Nat.eqb (List.length (trim v)) 0 || negb (matches v re_name) then
        reportValidity target (onForm (setCustomValidity target msg_invalid) P)
      else
        reportValidity target (onForm (setCustomValidity target []) P) in
    dispatchInput_year P1.

Definition dispatchInput (t : field) (P : Page) : Page :=
  match t with
  | FName => name_onInput (onForm (record FName EInput) P)
  | FYear => dispatchInput_year P
  end.

(** [onSubmit$] of the form, when its scheduled run happens. *)
Definition onSubmit (P : Page) : Page :=
  let P1 := onForm setAttribute_wasSubmitted P in
  let P2 := fold_left (fun Q i => dispatchInput i Q) querySelectorAll_input P1 in
  let '(ok, P3) := checkValidity P2 in
  if negb ok then P3
  else
    let data := FormData (form P3) in
    match get data (lit "name"), get data (lit "year") with
    | Some n, Some y => onForm (console_log (mkSubmission n (Number y))) P3
    | _, _ => P3              (* not reached: both entries are there *)
    end.

(** A scheduled run happens. *)
Definition runHandler (r : handlerRun) (P : Page) : Page :=
  match r with
  | RunOnInvalid target => onForm (onInvalid target) P
  | RunOnSubmit => onSubmit P
  end.

Definition removeNth (k : nat) (l : list handlerRun) : list handlerRun :=
  firstn k l ++ skipn (S k) l.

(** What happens on the page: the user types a value into a field, the
    user presses the button (the browser validates the form and, when it
    is valid, fires [submit]), or the [k]-th scheduled run happens. *)
Inductive occurrence : Type :=
| Types (t : field) (v : jsstring)
| Presses
| Runs (k : nat).

Definition step (P : Page) (o : occurrence) : Page :=
  match o with
  | Types t v => dispatchInput t (onForm (setValue t v) P)
  | Presses =>
      let '(ok, P1) := checkValidity P in
      if ok then schedule RunOnSubmit P1 else P1
  | Runs k =>
      match nth_error (scheduled P) k with
      | Some r => runHandler r (mkPage (form P) (removeNth k (scheduled P)))
      | None => P
      end
  end.

Definition run (P : Page) (l : list occurrence) : Page := fold_left step l P.

Definition initial : Page := mkPage Dom.initial [].

End Lazy.

(* ================================================================== *)
(** * The validation rules as the specification words them *)
(* ================================================================== *)

Module Spec.

Definition trimmed_empty (v : jsstring) : bool := isEmpty (trim v).

(** "one or more ASCII digits" *)
Definition one_or_more_ascii_digits (v : jsstring) : bool :=
  negb (isEmpty v) && forallb digit v.

(** "starts with an uppercase ASCII letter" *)
Definition starts_with_uppercase_ascii (v : jsstring) : bool :=
  match v with
  | c :: _ => upperAZ c
  | [] => false
  end.

(** No line terminator (LF, CR, U+2028, U+2029) after the first code unit. *)
Definition single_line_after_first (v : jsstring) : bool :=
  match v with
  | _ :: r => forallb dot r
  | [] => true
  end.

(** The Year rules, first match wins. *)
Definition year_message (yearValue nameValue : jsstring) : jsstring :=
  if trimmed_empty yearValue then
    lit "Field is required"
  else if negb (one_or_more_ascii_digits yearValue) || isNaN (Number yearValue) then
    lit "Field must be a number"
  else if lt (Number yearValue) (ofN 2000) then
    lit "Number must be greater or equal than 2000"
  else if streq nameValue (lit "Newborn") && lt (Number yearValue) (ofN 2024) then
    lit "Newborn can not be born before 2024"
  else
    [].

(** The Name rule as worded. *)
Definition name_message (nameValue : jsstring) : jsstring :=
  if trimmed_empty nameValue || negb (starts_with_uppercase_ascii nameValue)
  then lit "Field is invalid"
  else [].

(** The Name rule with the pattern read as the regular expression reads. *)
Definition name_message_regex (nameValue : jsstring) : jsstring :=
  if trimmed_empty nameValue
     || negb (starts_with_uppercase_ascii nameValue
              && single_line_after_first nameValue)
  then lit "Field is invalid"
  else [].

End Spec.

(* ================================================================== *)
(** * Vocabulary of the properties *)
(* ================================================================== *)

(** Everything of the form but the log of dispatched events. *)
Definition view (F : Form) :=
  (wasSubmitted F, nameInput F, nameSpan F, yearInput F, yearSpan F, console F).

(** [setCustomValidity] and then [reportValidity], the two calls of every
    branch of the input handlers. *)
Definition validate (t : field) (msg : jsstring) (F : Form) : Form :=
  reportValidity t (setCustomValidity t msg F).

(** The state in which [onSubmit$] calls [checkValidity]: the attribute is
    set and [input] has been dispatched at both inputs. *)
Definition revalidated (F : Form) : Form :=
  fold_left (fun G i => dispatchInput i G) querySelectorAll_input
            (setAttribute_wasSubmitted F).

Definition invalidEvent (t : field) (msg : jsstring) : list (field * eventType) :=
  if isEmpty msg then [] else [(t, EInvalid)].

(** The stored messages are those of the rules on the current values once
    the form was submitted, and empty before. *)
Definition upToDate (F : Form) : Prop :=
  if wasSubmitted F
  then validationMessage (nameInput F)
         = Spec.name_message_regex (value (nameInput F))
       /\ validationMessage (yearInput F)
          = Spec.year_message (value (yearInput F)) (value (nameInput F))
  else validationMessage (nameInput F) = []
       /\ validationMessage (yearInput F) = [].

Definition allValid (F : Form) : bool := valid FName F && valid FYear F.

(** The record that [onSubmit$] builds from the form data of a form whose
    Year value is digits: the Name entry of the form data, and [Number] of
    the Year value. *)
Definition submissionOf (F : Form) : submission :=
  mkSubmission (toScalarValueString (value (nameInput F)))
               (Number (value (yearInput F))).

(** The form after a first, rejected submission of the empty form. *)
Definition submittedEmpty : Form := run initial [Submit].

(** "A" followed by U+2028 LINE SEPARATOR. *)
Definition lineSeparatorName : jsstring := lit "A" ++ [8232%N].

(** The Name rule with its pattern taken by its description: the message
    after an [input] event on Name is "Field is invalid" exactly when the
    trimmed value is empty or the value does not start with an uppercase
    ASCII letter, and empty otherwise. *)
Definition name_rule_as_worded : Prop :=
  forall F : Form,
    wasSubmitted F = true ->
    validationMessage (nameInput (dispatchInput FName F))
    = Spec.name_message (value (nameInput F)).

Definition isFinite (x : number) : bool :=
  match x with
  | S754_zero _ | S754_finite _ _ _ => true
  | S754_infinity _ | S754_nan => false
  end.

(** [Number] reads the text as a finite number that is not below 2000. *)
Definition readsAsYear (v : jsstring) : bool :=
  isFinite (Number v) && negb (isNaN (Number v))
  && negb (lt (Number v) (ofN 2000)).

Definition field_eqb (a b : field) : bool :=
  match a, b with
  | FName, FName | FYear, FYear => true
  | _, _ => false
  end.

(** The value that the actions [l] typed last into a field; empty when
    they typed none. *)
Definition typed (t : field) (l : list action) : jsstring :=
  fold_left (fun v a =>
               match a with
               | Edit t' v' => if field_eqb t t' then v' else v
               | Submit => v
               end) l [].

(** The integer that a sequence of decimal digits writes. *)
Definition yearNumber (v : jsstring) : N := digitsMV 10 v.

(** A record that the rules of both fields let through. *)
Definition passesRules (r : submission) : Prop :=
  matches (name r) re_name = true /\
  exists k : N,
    year r = ofN k /\ (2000 <= k)%N /\ (name r = lit "Newborn" -> (2024 <= k)%N).

Definition countSubmits (l : list action) : nat := List.length (filter isSubmit l).

(** The values that a submission lets through. *)
Definition accepts (nameValue yearValue : jsstring) : bool :=
  matches nameValue re_name
  && Spec.one_or_more_ascii_digits yearValue
  && N.leb 2000 (yearNumber yearValue)
  && (negb (streq nameValue (lit "Newborn")) || N.leb 2024 (yearNumber yearValue)).

(** A code unit that is no surrogate. *)
Definition notSurrogate (c : N) : bool :=
  negb (isLeadSurrogate c) && negb (isTrailSurrogate c).

(** A code unit that the conversion to a scalar-value string neither
    changes nor produces: no surrogate and not U+FFFD. *)
Definition plainUnit (c : N) : bool := notSurrogate c && negb (N.eqb c 65533).

(** The record of the raw values of the two fields. *)
Definition rawSubmissionOf (F : Form) : submission :=
  mkSubmission (value (nameInput F)) (Number (value (yearInput F))).

(** [onSubmit$] logs the record of the raw values exactly when both fields
    are valid after the re-validation. *)
Definition submit_logs_raw_values : Prop :=
  forall F : Form,
    console (onSubmit F)
    = if allValid (revalidated F)
      then console F ++ [rawSubmissionOf F]
      else console F.

(** "A" followed by the unpaired lead surrogate U+D800. *)
Definition loneSurrogateName : jsstring := lit "A" ++ [55296%N].

(** Under every invalid field the span holds the field's message, or a run
    of [onInvalid$] for the field is still scheduled. *)
Definition shownOrScheduled (P : Lazy.Page) : Prop :=
  forall t : field,
    valid t (Lazy.form P) = false ->
    nextElementSibling_textContent t (Lazy.form P)
    = validationMessage (input t (Lazy.form P))
    \/ In (Lazy.RunOnInvalid t) (Lazy.scheduled P).

(** The empty form is submitted and every scheduled run happens: the run
    of [onSubmit$], then the five runs of [onInvalid$] that it schedules. *)
Definition firstRejection : list Lazy.occurrence :=
  [Lazy.Presses; Lazy.Runs 0; Lazy.Runs 0; Lazy.Runs 0; Lazy.Runs 0;
   Lazy.Runs 0; Lazy.Runs 0].

(** Comparing the Number values of [n] and [k] gives what comparing the
    integers gives. *)
Definition compares_as_integer (k n : N) : bool :=
  Bool.eqb (lt (ofN n) (ofN k)) (N.ltb n k).

(* ================================================================== *)
(** * Facts about the platform layer *)
(* ================================================================== *)

Section PlatformFacts.

Lemma streq_refl (s : jsstring) : streq s s = true.
Proof.
  induction s as [|c s IH]; simpl; [reflexivity|].
  now rewrite N.eqb_refl, IH.
Qed.

Lemma streq_eq (a b : jsstring) : streq a b = true <-> a = b.
Proof.
  split.
  - revert b; induction a as [|x a IH]; intros [|y b] H; simpl in H;
      try discriminate; [reflexivity|].
    apply andb_true_iff in H as [Hx Hab].
    apply N.eqb_eq in Hx. f_equal; auto.
  - intros ->. apply streq_refl.
Qed.

Lemma isEmpty_length (s : jsstring) : Nat.eqb (List.length s) 0 = isEmpty s.
Proof. destruct s; reflexivity. Qed.

(** *** The two regular expressions, read as predicates on the whole value *)

Lemma searchFrom_AssertStart (p : pattern) (s : jsstring) :
  searchFrom (AssertStart :: p) false s = false.
Proof. induction s as [|c s IH]; simpl; auto. Qed.

Lemma matches_anchored (p : pattern) (s : jsstring) :
  matches s (AssertStart :: p) = matchTerms p true s.
Proof.
  unfold matches. destruct s as [|c s]; simpl.
  - now rewrite orb_false_r.
  - now rewrite searchFrom_AssertStart, orb_false_r.
Qed.

(** [/^\d+$/]: the value is one or more ASCII digits and nothing else. *)
Lemma matches_re_year (v : jsstring) :
  matches v Component.re_year = negb (isEmpty v) && forallb digit v.
Proof.
  unfold Component.re_year. rewrite matches_anchored.
  destruct v as [|c r]; [reflexivity|].
  cbn [matchTerms isEmpty negb andb forallb]. f_equal.
  induction r as [|d r IH]; [reflexivity|].
  cbn [forallb isEmpty andb]. rewrite IH. now rewrite orb_false_r.
Qed.

(** [/^[A-Z].*$/]: the value starts with an uppercase ASCII letter and no
    line terminator follows it. *)
Lemma matches_re_name (v : jsstring) :
  matches v Component.re_name =
  match v with
  | c :: r => upperAZ c && forallb dot r
  | [] => false
  end.
Proof.
  unfold Component.re_name. rewrite matches_anchored.
  destruct v as [|c r]; [reflexivity|].
  cbn [matchTerms]. f_equal.
  induction r as [|d r IH]; [reflexivity|].
  simpl in *. rewrite IH. now rewrite orb_false_r.
Qed.

(** *** Digits are not white space *)

Lemma digit_range (c : N) : digit c = true <-> (48 <= c <= 57)%N.
Proof.
  unfold digit. rewrite andb_true_iff, !N.leb_le. tauto.
Qed.

Lemma digit_not_space (c : N) : digit c = true -> isStrWhiteSpaceChar c = false.
Proof.
  intros H. apply digit_range in H.
  unfold isStrWhiteSpaceChar, isWhiteSpace, isLineTerminator.
  repeat match goal with
         | |- context [N.eqb c ?k] =>
             replace (N.eqb c k) with false by (symmetry; apply N.eqb_neq; lia)
         end.
  replace (N.leb 8192 c) with false by (symmetry; apply N.leb_gt; lia).
  reflexivity.
Qed.

Lemma trimStart_digits (s : jsstring) :
  forallb digit s = true -> trimStart s = s.
Proof.
  destruct s as [|c r]; [reflexivity|]. simpl.
  intros H. apply andb_true_iff in H as [Hc _].
  now rewrite (digit_not_space c Hc).
Qed.

Lemma forallb_rev (p : N -> bool) (s : jsstring) :
  forallb p (rev s) = forallb p s.
Proof.
  induction s as [|c s IH]; [reflexivity|].
  simpl. rewrite forallb_app, IH. simpl.
  rewrite andb_true_r. apply andb_comm.
Qed.

Lemma trim_digits (s : jsstring) : forallb digit s = true -> trim s = s.
Proof.
  intros H. unfold trim, trimEnd.
  rewrite (trimStart_digits s H).
  rewrite trimStart_digits by now rewrite forallb_rev.
  apply rev_involutive.
Qed.

(** *** [Number] on a sequence of digits *)

Lemma span_digits (s : jsstring) :
  forallb digit s = true -> span digit s = (s, []).
Proof.
  induction s as [|c s IH]; [reflexivity|]. simpl.
  intros H. apply andb_true_iff in H as [Hc Hs].
  now rewrite Hc, (IH Hs).
Qed.

Lemma digit_neq (c k : N) :
  digit c = true -> (k < 48 \/ 57 < k)%N -> N.eqb c k = false.
Proof.
  intros H Hk. apply digit_range in H. apply N.eqb_neq. lia.
Qed.

Ltac digit_neq_all c :=
  repeat match goal with
         | |- context [N.eqb c (cu ?a)] =>
             rewrite (digit_neq c (cu a)) by (auto; unfold cu; simpl; lia)
         end;
  cbn [orb].

Lemma RoundMV_integer (n : N) : RoundMV false n 0 = ofN n.
Proof. destruct n; reflexivity. Qed.

(** On one or more digits, [Number] is the Number value of the integer
    they write in base ten. *)
Lemma Number_digits (v : jsstring) :
  negb (isEmpty v) && forallb digit v = true ->
  Number v = ofN (digitsMV 10 v).
Proof.
  intros H. apply andb_true_iff in H as [Hne Hd].
  unfold Number. rewrite (trim_digits v Hd).
  destruct v as [|c r]; [discriminate|]. cbn [isEmpty].
  pose proof Hd as Hd'. cbn [forallb] in Hd'.
  apply andb_true_iff in Hd' as [Hc Hr].
  assert (Hnd : NonDecimalIntegerLiteral (c :: r) = None).
  { destruct r as [|x ds]; [reflexivity|].
    cbn [forallb] in Hr. apply andb_true_iff in Hr as [Hx _].
    unfold NonDecimalIntegerLiteral.
    digit_neq_all x. destruct (N.eqb c (cu "0")); reflexivity. }
  rewrite Hnd. unfold StrDecimalLiteral.
  digit_neq_all c.
  unfold StrUnsignedDecimalLiteral.
  replace (streq (c :: r) (lit "Infinity")) with false.
  2:{ cbn. rewrite (digit_neq c 73) by (auto; lia). reflexivity. }
  rewrite (span_digits _ Hd). cbn [afterDot isEmpty ExponentPart].
  apply RoundMV_integer.
Qed.

(** Rounding never produces NaN: right shifts keep a mantissa non-negative. *)
Lemma shr_1_nonneg (mrs : shr_record) :
  (0 <= shr_m mrs)%Z -> (0 <= shr_m (shr_1 mrs))%Z.
Proof.
  destruct mrs as [m r s0]. simpl.
  destruct m as [|p|p]; [simpl; lia| |lia].
  intros _. destruct p; simpl; lia.
Qed.

Lemma iter_pos_shr_1_nonneg (p : positive) (mrs : shr_record) :
  (0 <= shr_m mrs)%Z -> (0 <= shr_m (iter_pos shr_1 p mrs))%Z.
Proof.
  revert mrs. induction p as [p IH|p IH|]; intros mrs H; simpl.
  - apply IH, IH, shr_1_nonneg, H.
  - apply IH, IH, H.
  - apply shr_1_nonneg, H.
Qed.

Lemma shr_nonneg (mrs : shr_record) (e n : Z) :
  (0 <= shr_m mrs)%Z -> (0 <= shr_m (fst (shr mrs e n)))%Z.
Proof.
  intros H. destruct n; simpl; auto using iter_pos_shr_1_nonneg.
Qed.

Lemma shr_record_of_loc_m (m : Z) (l : location) :
  shr_m (shr_record_of_loc m l) = m.
Proof. destruct l as [|[ | | ]]; reflexivity. Qed.

Lemma shr_fexp_nonneg (p e : Z) (m : Z) (ex : Z) (l : location) :
  (0 <= m)%Z -> (0 <= shr_m (fst (shr_fexp p e m ex l)))%Z.
Proof.
  intros H. unfold shr_fexp. apply shr_nonneg.
  now rewrite shr_record_of_loc_m.
Qed.

Lemma round_nearest_even_nonneg (m : Z) (l : location) :
  (0 <= m)%Z -> (0 <= round_nearest_even m l)%Z.
Proof.
  intros H. destruct l as [|[ | | ]]; simpl; try lia.
  destruct (Z.even m); lia.
Qed.

Lemma binary_round_aux_not_nan (p e : Z) (sx : bool) (mx ex : Z) (l : location) :
  (0 <= mx)%Z -> binary_round_aux p e sx mx ex l <> S754_nan.
Proof.
  intros H. unfold binary_round_aux.
  pose proof (shr_fexp_nonneg p e mx ex l H) as H1.
  destruct (shr_fexp p e mx ex l) as [mrs' e']. cbn [fst] in H1.
  pose proof (shr_fexp_nonneg p e _ e' loc_Exact
                (round_nearest_even_nonneg _ (loc_of_shr_record mrs') H1)) as H2.
  destruct (shr_fexp p e _ e' loc_Exact) as [mrs'' e'']. cbn [fst] in H2.
  destruct (shr_m mrs'') as [|q|q]; [discriminate| |lia].
  destruct (Z.leb e'' (e - p)); discriminate.
Qed.

Lemma binary_round_not_nan (p e : Z) (sx : bool) (mx : positive) (ex : Z) :
  binary_round p e sx mx ex <> S754_nan.
Proof.
  unfold binary_round. destruct (shl_align _ _ _) as [mz ez].
  apply binary_round_aux_not_nan. lia.
Qed.

Lemma ofN_not_NaN (n : N) : isNaN (ofN n) = false.
Proof.
  unfold ofN, binary_normalize. destruct n as [|p]; [reflexivity|].
  simpl Z.of_N. cbv iota.
  pose proof (binary_round_not_nan prec emax false p 0) as H.
  destruct (binary_round prec emax false p 0); auto. congruence.
Qed.

(** *** Comparing the Number value of an integer with 2000 and 2024 *)

(** [2^(d-1) <= p < 2^d] for [d] the number of binary digits of [p]. *)
Lemma digits2_pos_bounds (p : positive) :
  (2 ^ (Zpos (digits2_pos p) - 1) <= Zpos p < 2 ^ Zpos (digits2_pos p))%Z.
Proof.
  induction p as [p IH|p IH|]; cbn [digits2_pos].
  - rewrite Pos2Z.inj_succ.
    replace (Z.succ (Zpos (digits2_pos p)) - 1)%Z with (Zpos (digits2_pos p) - 1 + 1)%Z by lia.
    rewrite Z.pow_succ_r by lia. rewrite Z.pow_add_r by lia.
    change (2 ^ 1)%Z with 2%Z. lia.
  - rewrite Pos2Z.inj_succ.
    replace (Z.succ (Zpos (digits2_pos p)) - 1)%Z with (Zpos (digits2_pos p) - 1 + 1)%Z by lia.
    rewrite Z.pow_succ_r by lia. rewrite Z.pow_add_r by lia.
    change (2 ^ 1)%Z with 2%Z. lia.
  - cbn. lia.
Qed.

Lemma shr_1_div2 (mrs : shr_record) :
  (0 <= shr_m mrs)%Z -> shr_m (shr_1 mrs) = Z.div2 (shr_m mrs).
Proof.
  destruct mrs as [m r s0]. cbn [shr_m].
  destruct m as [|p|p]; [reflexivity| |lia].
  intros _. destruct p; reflexivity.
Qed.

Lemma iter_pos_shr_1_shiftr (k : positive) (mrs : shr_record) :
  (0 <= shr_m mrs)%Z ->
  shr_m (iter_pos shr_1 k mrs) = Z.shiftr (shr_m mrs) (Zpos k).
Proof.
  revert mrs. induction k as [k IH|k IH|]; intros mrs H; cbn [iter_pos].
  - rewrite IH by (apply iter_pos_shr_1_nonneg, shr_1_nonneg, H).
    rewrite IH by (apply shr_1_nonneg, H).
    rewrite shr_1_div2 by exact H.
    rewrite Z.div2_spec, !Z.shiftr_shiftr by lia.
    f_equal. lia.
  - rewrite IH by (apply iter_pos_shr_1_nonneg, H).
    rewrite IH by exact H.
    rewrite Z.shiftr_shiftr by lia. f_equal. lia.
  - rewrite shr_1_div2 by exact H. apply Z.div2_spec.
Qed.

Lemma shr_fexp_pos (m ex : Z) (l : location) :
  (0 < m)%Z -> (-1074 <= ex)%Z ->
  (0 < shr_m (fst (shr_fexp prec emax m ex l)))%Z /\
  (ex <= snd (shr_fexp prec emax m ex l))%Z.
Proof.
  intros Hm Hex. unfold shr_fexp, shr.
  destruct m as [|p|p]; try lia. cbn [Zdigits2].
  pose proof (digits2_pos_bounds p) as [Hlo _].
  set (d := Zpos (digits2_pos p)) in *.
  assert (Hk : (fexp prec emax (d + ex) - ex <= d - 1)%Z).
  { unfold fexp, SpecFloat.emin, prec, emax. lia. }
  destruct (fexp prec emax (d + ex) - ex)%Z as [|q|q] eqn:Hq; cbn [fst snd];
    rewrite ?shr_record_of_loc_m; try (split; lia).
  rewrite iter_pos_shr_1_shiftr by (rewrite shr_record_of_loc_m; lia).
  rewrite shr_record_of_loc_m, Z.shiftr_div_pow2 by lia.
  split; [|lia].
  apply Z.div_str_pos. split; [apply Z.pow_pos_nonneg; lia|].
  apply Z.le_trans with (2 ^ (d - 1))%Z; [|exact Hlo].
  apply Z.pow_le_mono_r; lia.
Qed.

Lemma round_nearest_even_ge (m : Z) (l : location) :
  (m <= round_nearest_even m l)%Z.
Proof.
  destruct l as [|[ | | ]]; simpl; try lia.
  destruct (Z.even m); lia.
Qed.

(** A positive mantissa rounds to infinity or to a finite number of the
    same sign whose exponent is not below the one given. *)
Lemma binary_round_aux_shape (sx : bool) (mx ex : Z) (l : location) :
  (0 < mx)%Z -> (-1074 <= ex)%Z ->
  binary_round_aux prec emax sx mx ex l = S754_infinity sx \/
  exists m e, binary_round_aux prec emax sx mx ex l = S754_finite sx m e
              /\ (ex <= e)%Z.
Proof.
  intros Hm Hex. unfold binary_round_aux.
  destruct (shr_fexp_pos mx ex l Hm Hex) as [H1 He1].
  destruct (shr_fexp prec emax mx ex l) as [mrs' e']. cbn [fst snd] in H1, He1.
  pose proof (round_nearest_even_ge (shr_m mrs') (loc_of_shr_record mrs')) as Hr.
  destruct (shr_fexp_pos (round_nearest_even (shr_m mrs') (loc_of_shr_record mrs'))
              e' loc_Exact ltac:(lia) ltac:(lia)) as [H2 He2].
  destruct (shr_fexp prec emax _ e' loc_Exact) as [mrs'' e''].
  cbn [fst snd] in H2, He2.
  destruct (shr_m mrs'') as [|q|q]; try lia.
  destruct (Z.leb e'' (emax - prec)); [right|left; reflexivity].
  exists q, e''. split; [reflexivity|lia].
Qed.

(** From 2048 on, the Number value of an integer has an exponent above
    that of 2000 and 2024 (which is -42), or is infinite. *)
Lemma ofN_large (n : N) :
  (2048 <= n)%N ->
  ofN n = S754_infinity false \/
  exists m e, ofN n = S754_finite false m e /\ (-41 <= e)%Z.
Proof.
  intros Hn. destruct n as [|p]; [lia|].
  unfold ofN, binary_normalize. cbn [Z.of_N]. unfold binary_round.
  pose proof (digits2_pos_bounds p) as [_ Hhi].
  set (d := Zpos (digits2_pos p)) in *.
  assert (Hd : (12 <= d)%Z).
  { destruct (Z.le_gt_cases 12 d) as [H|H]; [exact H|exfalso].
    assert (2 ^ d <= 2 ^ 11)%Z by (apply Z.pow_le_mono_r; lia).
    change (2 ^ 11)%Z with 2048%Z in *. lia. }
  assert (Hf : (-41 <= fexp prec emax (d + 0))%Z).
  { unfold fexp, SpecFloat.emin, prec, emax. lia. }
  unfold shl_align.
  destruct (fexp prec emax (d + 0) - 0)%Z as [|q|q] eqn:Hq.
  - destruct (binary_round_aux_shape false (Zpos p) 0 loc_Exact
                ltac:(lia) ltac:(lia)) as [H|(m & e & H & He)];
      [now left|right]. exists m, e. split; [exact H|lia].
  - destruct (binary_round_aux_shape false (Zpos p) 0 loc_Exact
                ltac:(lia) ltac:(lia)) as [H|(m & e & H & He)];
      [now left|right]. exists m, e. split; [exact H|lia].
  - destruct (binary_round_aux_shape false (Zpos (Pos.iter xO p q))
                (fexp prec emax (d + 0)) loc_Exact
                ltac:(lia) ltac:(lia)) as [H|(m & e & H & He)];
      [now left|right]. exists m, e. split; [exact H|lia].
Qed.

Lemma lt_ofN_large (n : N) (mk : positive) :
  (2048 <= n)%N -> lt (ofN n) (S754_finite false mk (-42)) = false.
Proof.
  intros Hn. destruct (ofN_large n Hn) as [H|(m & e & H & He)]; rewrite H.
  - reflexivity.
  - unfold lt, SFltb, SFcompare.
    destruct (Z.compare_spec e (-42)); try lia; reflexivity.
Qed.

Lemma lt_ofN_small (k : N) :
  forallb (compares_as_integer k) (List.map N.of_nat (seq 0 2048)) = true ->
  forall n, (n < 2048)%N -> lt (ofN n) (ofN k) = N.ltb n k.
Proof.
  intros H n Hn. rewrite forallb_forall in H.
  apply eqb_prop, H, in_map_iff.
  exists (N.to_nat n). split; [apply N2Nat.id|].
  apply in_seq. lia.
Qed.

Lemma lt_ofN_2000 (n : N) : lt (ofN n) (ofN 2000) = N.ltb n 2000.
Proof.
  destruct (N.lt_ge_cases n 2048) as [Hn|Hn].
  - apply lt_ofN_small; [vm_compute; reflexivity | exact Hn].
  - change (ofN 2000) with (S754_finite false 8796093022208000 (-42)).
    rewrite lt_ofN_large by exact Hn.
    symmetry. apply N.ltb_ge. lia.
Qed.

Lemma lt_ofN_2024 (n : N) : lt (ofN n) (ofN 2024) = N.ltb n 2024.
Proof.
  destruct (N.lt_ge_cases n 2048) as [Hn|Hn].
  - apply lt_ofN_small; [vm_compute; reflexivity | exact Hn].
  - change (ofN 2024) with (S754_finite false 8901646138474496 (-42)).
    rewrite lt_ofN_large by exact Hn.
    symmetry. apply N.ltb_ge. lia.
Qed.

(** *** Scalar-value strings *)

Lemma toScalarValueString_cons (c : N) (r : jsstring) :
  notSurrogate c = true ->
  toScalarValueString (c :: r) = c :: toScalarValueString r.
Proof.
  unfold notSurrogate. intros H. apply andb_true_iff in H as [Hl Ht].
  cbn [toScalarValueString].
  now destruct (isLeadSurrogate c), (isTrailSurrogate c).
Qed.

(** A string without surrogates is its own conversion. *)
Lemma toScalarValueString_id (v : jsstring) :
  forallb notSurrogate v = true -> toScalarValueString v = v.
Proof.
  induction v as [|c r IH]; [reflexivity|]. cbn [forallb].
  intros H. apply andb_true_iff in H as [Hc Hr].
  now rewrite (toScalarValueString_cons c r Hc), (IH Hr).
Qed.

Lemma plainUnit_notSurrogate (c : N) : plainUnit c = true -> notSurrogate c = true.
Proof. unfold plainUnit. intros H. now apply andb_true_iff in H as [H _]. Qed.

Lemma forallb_impl (p q : N -> bool) (v : jsstring) :
  (forall c, p c = true -> q c = true) ->
  forallb p v = true -> forallb q v = true.
Proof.
  intros Hpq. rewrite !forallb_forall. auto.
Qed.

(** Only a string of plain code units converts to itself. *)
Lemma toScalarValueString_inv (v w : jsstring) :
  forallb plainUnit w = true -> toScalarValueString v = w -> v = w.
Proof.
  revert w. induction v as [|c r IH]; intros w Hw E.
  - exact E.
  - cbn [toScalarValueString] in E.
    assert (Hbad : forall u, 65533%N :: u = w -> False).
    { intros u <-. cbn in Hw. discriminate. }
    destruct (isLeadSurrogate c) eqn:Hl.
    + destruct r as [|d r']; [now apply Hbad in E|].
      destruct (isTrailSurrogate d); [|now apply Hbad in E].
      subst w. cbn [forallb] in Hw. apply andb_true_iff in Hw as [Hc _].
      apply plainUnit_notSurrogate in Hc. unfold notSurrogate in Hc.
      rewrite Hl in Hc. discriminate.
    + destruct (isTrailSurrogate c); [now apply Hbad in E|].
      destruct w as [|c' w']; [discriminate|].
      injection E as -> E. cbn [forallb] in Hw.
      apply andb_true_iff in Hw as [_ Hw]. f_equal. now apply IH.
Qed.

(** Comparing with a string of plain code units is not affected by the
    conversion. *)
Lemma streq_toScalarValueString (v w : jsstring) :
  forallb plainUnit w = true ->
  streq (toScalarValueString v) w = streq v w.
Proof.
  intros Hw. apply eq_true_iff_eq. rewrite !streq_eq. split.
  - apply toScalarValueString_inv, Hw.
  - intros ->. apply toScalarValueString_id.
    apply (forallb_impl plainUnit); [apply plainUnit_notSurrogate | exact Hw].
Qed.

Lemma digit_notSurrogate (c : N) : digit c = true -> notSurrogate c = true.
Proof.
  intros H. apply digit_range in H.
  unfold notSurrogate, isLeadSurrogate, isTrailSurrogate.
  replace (N.leb 55296 c) with false by (symmetry; apply N.leb_gt; lia).
  replace (N.leb 56320 c) with false by (symmetry; apply N.leb_gt; lia).
  reflexivity.
Qed.

Lemma toScalarValueString_digits (v : jsstring) :
  forallb digit v = true -> toScalarValueString v = v.
Proof.
  intros H. apply toScalarValueString_id.
  apply (forallb_impl digit); [apply digit_notSurrogate | exact H].
Qed.

Lemma upperAZ_notSurrogate (c : N) : upperAZ c = true -> notSurrogate c = true.
Proof.
  unfold upperAZ. rewrite andb_true_iff, !N.leb_le. intros H.
  unfold notSurrogate, isLeadSurrogate, isTrailSurrogate.
  replace (N.leb 55296 c) with false by (symmetry; apply N.leb_gt; lia).
  replace (N.leb 56320 c) with false by (symmetry; apply N.leb_gt; lia).
  reflexivity.
Qed.

(** The conversion puts no line terminator into a string that has none. *)
Lemma forallb_dot_toScalarValueString (n : nat) (r : jsstring) :
  (List.length r <= n)%nat ->
  forallb dot r = true -> forallb dot (toScalarValueString r) = true.
Proof.
  revert r. induction n as [|n IH]; intros r Hlen Hr.
  - destruct r; [reflexivity | cbn in Hlen; lia].
  - destruct r as [|c r]; [reflexivity|].
    cbn [forallb] in Hr. apply andb_true_iff in Hr as [Hc Hr].
    cbn [List.length] in Hlen. cbn [toScalarValueString].
    destruct (isLeadSurrogate c).
    + destruct r as [|d r']; [reflexivity|].
      cbn [forallb] in Hr. apply andb_true_iff in Hr as [Hd Hr'].
      cbn [List.length] in Hlen.
      destruct (isTrailSurrogate d); cbn [forallb].
      * rewrite Hc, Hd. apply IH; [lia | exact Hr'].
      * change (dot 65533) with true. apply IH; [cbn; lia|].
        cbn [forallb]. now rewrite Hd.
    + destruct (isTrailSurrogate c); cbn [forallb].
      * change (dot 65533) with true. apply IH; [lia | exact Hr].
      * rewrite Hc. apply IH; [lia | exact Hr].
Qed.

(** A value that matches [/^[A-Z].*$/] still matches it when converted. *)
Lemma matches_re_name_toScalarValueString (v : jsstring) :
  matches v Component.re_name = true ->
  matches (toScalarValueString v) Component.re_name = true.
Proof.
  rewrite !matches_re_name. destruct v as [|c r]; [discriminate|].
  intros H. apply andb_true_iff in H as [Hc Hr].
  rewrite (toScalarValueString_cons c r (upperAZ_notSurrogate c Hc)), Hc.
  apply (forallb_dot_toScalarValueString (List.length r)); [lia | exact Hr].
Qed.

End PlatformFacts.

(* ================================================================== *)
(** * Facts about the handlers *)
(* ================================================================== *)

Lemma validate_year (msg : jsstring) (F : Form) :
  validate FYear msg F =
  mkForm (wasSubmitted F) (nameInput F) (nameSpan F)
         (mkInput (value (yearInput F)) msg)
         (if isEmpty msg then yearSpan F else msg)
         (console F)
         (if isEmpty msg then dispatched F else dispatched F ++ [(FYear, EInvalid)]).
Proof. destruct F, msg; reflexivity. Qed.

Lemma validate_name (msg : jsstring) (F : Form) :
  validate FName msg F =
  mkForm (wasSubmitted F)
         (mkInput (value (nameInput F)) msg)
         (if isEmpty msg then nameSpan F else msg)
         (yearInput F) (yearSpan F)
         (console F)
         (if isEmpty msg then dispatched F else dispatched F ++ [(FName, EInvalid)]).
Proof. destruct F, msg; reflexivity. Qed.

(** The year handler stores the message the rules give, and reports it. *)
Lemma year_onInput_rules (F : Form) :
  year_onInput F =
  if wasSubmitted F
  then validate FYear
         (Spec.year_message (value (yearInput F)) (value (nameInput F))) F
  else F.
Proof.
  unfold year_onInput, Spec.year_message, Spec.trimmed_empty,
    Spec.one_or_more_ascii_digits, validate.
  destruct (wasSubmitted F); [|reflexivity].
  cbn [negb input]. rewrite isEmpty_length, matches_re_year.
  destruct (isEmpty (trim (value (yearInput F)))); [reflexivity|].
  destruct (_ || _); [reflexivity|].
  destruct (lt _ (ofN 2000)); [reflexivity|].
  change (get (FormData F) (lit "name"))
    with (Some (toScalarValueString (value (nameInput F)))).
  cbn [strict_eq].
  rewrite streq_toScalarValueString by reflexivity.
  destruct (_ && _); reflexivity.
Qed.

(** The name handler stores the message of its rule, reports it, and then
    dispatches [input] at the year input. *)
Lemma name_onInput_rules (F : Form) :
  name_onInput F =
  if wasSubmitted F
  then dispatchInput_year
         (validate FName (Spec.name_message_regex (value (nameInput F))) F)
  else F.
Proof.
  unfold name_onInput, Spec.name_message_regex, Spec.trimmed_empty, validate.
  destruct (wasSubmitted F); [|reflexivity].
  cbn [negb input]. rewrite isEmpty_length, matches_re_name.
  f_equal.
  replace (Spec.starts_with_uppercase_ascii (value (nameInput F))
           && Spec.single_line_after_first (value (nameInput F)))
    with (match value (nameInput F) with
          | c :: r => upperAZ c && forallb dot r
          | [] => false
          end)
    by (destruct (value (nameInput F)); reflexivity).
  destruct (_ || _); reflexivity.
Qed.

(** [input] dispatched at the year input, in closed form. *)
Lemma dispatchInput_year_closed (F : Form) :
  dispatchInput FYear F =
  let m := Spec.year_message (value (yearInput F)) (value (nameInput F)) in
  if wasSubmitted F
  then mkForm true (nameInput F) (nameSpan F)
              (mkInput (value (yearInput F)) m)
              (if isEmpty m then yearSpan F else m)
              (console F)
              (dispatched F ++ (FYear, EInput)
                 :: (if isEmpty m then [] else [(FYear, EInvalid)]))
  else record FYear EInput F.
Proof.
  unfold dispatchInput, dispatchInput_year. rewrite year_onInput_rules.
  destruct F as [ws ni ns yi ys co di]. cbn [record wasSubmitted].
  destruct ws; [|reflexivity].
  rewrite validate_year. cbn.
  destruct (isEmpty _); [reflexivity|].
  now rewrite <- app_assoc.
Qed.

(** [input] dispatched at the name input, in closed form. *)
Lemma dispatchInput_name_closed (F : Form) :
  dispatchInput FName F =
  let n := Spec.name_message_regex (value (nameInput F)) in
  let m := Spec.year_message (value (yearInput F)) (value (nameInput F)) in
  if wasSubmitted F
  then mkForm true
              (mkInput (value (nameInput F)) n)
              (if isEmpty n then nameSpan F else n)
              (mkInput (value (yearInput F)) m)
              (if isEmpty m then yearSpan F else m)
              (console F)
              (dispatched F
                 ++ (FName, EInput) :: (if isEmpty n then [] else [(FName, EInvalid)])
                 ++ (FYear, EInput) :: (if isEmpty m then [] else [(FYear, EInvalid)]))
  else record FName EInput F.
Proof.
  unfold dispatchInput at 1. rewrite name_onInput_rules.
  destruct F as [ws ni ns yi ys co di]. cbn [record wasSubmitted].
  destruct ws; [|reflexivity].
  rewrite validate_name.
  change (dispatchInput_year ?G) with (dispatchInput FYear G).
  rewrite dispatchInput_year_closed. cbn.
  destruct (isEmpty (Spec.name_message_regex _)), (isEmpty (Spec.year_message _ _));
    cbn; rewrite <- ?app_assoc; reflexivity.
Qed.

Lemma revalidated_closed (F : Form) :
  revalidated F =
  let n := Spec.name_message_regex (value (nameInput F)) in
  let m := Spec.year_message (value (yearInput F)) (value (nameInput F)) in
  mkForm true
         (mkInput (value (nameInput F)) n)
         (if isEmpty n then nameSpan F else n)
         (mkInput (value (yearInput F)) m)
         (if isEmpty m then yearSpan F else m)
         (console F)
         (dispatched F
            ++ (FName, EInput) :: invalidEvent FName n
            ++ (FYear, EInput) :: invalidEvent FYear m
            ++ (FYear, EInput) :: invalidEvent FYear m).
Proof.
  unfold revalidated, querySelectorAll_input. cbn [fold_left].
  rewrite dispatchInput_year_closed, dispatchInput_name_closed.
  destruct F as [ws ni ns yi ys co di]. cbn.
  generalize (Spec.name_message_regex (value ni)) as n.
  generalize (Spec.year_message (value yi) (value ni)) as m.
  intros [|c m] [|d n]; cbn; rewrite <- ?app_assoc; reflexivity.
Qed.

Lemma onSubmit_revalidated (F : Form) :
  onSubmit F =
  let '(ok, F3) := checkValidity (revalidated F) in
  if negb ok then F3
  else
    match get (FormData F3) (lit "name"), get (FormData F3) (lit "year") with
    | Some n, Some y => console_log (mkSubmission n (Number y)) F3
    | _, _ => F3
    end.
Proof. reflexivity. Qed.

(** [onSubmit$] in closed form. *)
Lemma onSubmit_closed (F : Form) :
  onSubmit F =
  let n := Spec.name_message_regex (value (nameInput F)) in
  let m := Spec.year_message (value (yearInput F)) (value (nameInput F)) in
  let R := revalidated F in
  mkForm true (nameInput R) (nameSpan R) (yearInput R) (yearSpan R)
         (if isEmpty n && isEmpty m
          then console F
                 ++ [mkSubmission
                       (toScalarValueString (value (nameInput F)))
                       (Number (toScalarValueString (value (yearInput F))))]
          else console F)
         (dispatched R ++ invalidEvent FName n ++ invalidEvent FYear m).
Proof.
  rewrite onSubmit_revalidated, revalidated_closed.
  destruct F as [ws ni ns yi ys co di]. cbn.
  generalize (Spec.name_message_regex (value ni)) as n.
  generalize (Spec.year_message (value yi) (value ni)) as m.
  intros [|c m] [|d n]; cbn; rewrite <- ?app_assoc, ?app_nil_r; reflexivity.
Qed.

(** [checkValidity] in closed form. *)
Lemma checkValidity_closed (F : Form) :
  checkValidity F =
  (valid FName F && valid FYear F,
   mkForm (wasSubmitted F)
          (nameInput F)
          (if valid FName F then nameSpan F else validationMessage (nameInput F))
          (yearInput F)
          (if valid FYear F then yearSpan F else validationMessage (yearInput F))
          (console F)
          (dispatched F
             ++ invalidEvent FName (validationMessage (nameInput F))
             ++ invalidEvent FYear (validationMessage (yearInput F)))).
Proof.
  destruct F as [ws [nv [|c n]] ns [yv [|d m]] ys co di];
    unfold checkValidity, fireInvalid, onInvalid; cbn;
    rewrite <- ?app_assoc, ?app_nil_r; reflexivity.
Qed.

Lemma checkValidity_valid (F : Form) :
  valid FName F = true -> valid FYear F = true -> checkValidity F = (true, F).
Proof.
  intros Hn Hy. rewrite checkValidity_closed, Hn, Hy.
  unfold valid in Hn, Hy. cbn [input] in Hn, Hy.
  destruct F as [ws [nv n] ns [yv m] ys co di]. cbn in *.
  destruct n, m; try discriminate. cbn. now rewrite app_nil_r.
Qed.

(** A message of the year rules is empty only past every rule. *)
Lemma year_message_empty (y n : jsstring) :
  Spec.year_message y n = [] ->
  Spec.trimmed_empty y = false /\
  Spec.one_or_more_ascii_digits y = true /\
  isNaN (Number y) = false /\
  lt (Number y) (ofN 2000) = false /\
  (streq n (lit "Newborn") && lt (Number y) (ofN 2024)) = false.
Proof.
  unfold Spec.year_message.
  destruct (Spec.trimmed_empty y); [discriminate|].
  destruct (Spec.one_or_more_ascii_digits y); cbn [negb orb]; [|discriminate].
  destruct (isNaN (Number y)); [discriminate|].
  destruct (lt (Number y) (ofN 2000)); [discriminate|].
  destruct (_ && _); [discriminate|].
  auto.
Qed.

(** On one or more digits the Year rules compare the integer the digits
    write. *)
Lemma year_message_of_digits (y n : jsstring) :
  Spec.one_or_more_ascii_digits y = true ->
  Spec.year_message y n =
  if N.ltb (digitsMV 10 y) 2000 then
    lit "Number must be greater or equal than 2000"
  else if streq n (lit "Newborn") && N.ltb (digitsMV 10 y) 2024 then
    lit "Newborn can not be born before 2024"
  else [].
Proof.
  intros Hd. unfold Spec.year_message, Spec.trimmed_empty.
  rewrite Hd. cbn [negb orb].
  unfold Spec.one_or_more_ascii_digits in Hd.
  rewrite (Number_digits y Hd), ofN_not_NaN, lt_ofN_2000, lt_ofN_2024.
  apply andb_true_iff in Hd as [Hne Hall].
  rewrite (trim_digits y Hall).
  now destruct y.
Qed.

(** ** Runs of the form *)

Lemma run_snoc (F : Form) (l : list action) (a : action) :
  run F (l ++ [a]) = step (run F l) a.
Proof. unfold run. now rewrite fold_left_app. Qed.

Lemma run_app (F : Form) (l1 l2 : list action) :
  run F (l1 ++ l2) = run (run F l1) l2.
Proof. unfold run. now rewrite fold_left_app. Qed.

(** A property of the first rendering that every step keeps holds after
    every run. *)
Lemma run_invariant (P : Form -> Prop) :
  P initial ->
  (forall F a, P F -> P (step F a)) ->
  forall l, P (run initial l).
Proof.
  intros H0 Hstep l. induction l as [|a l IH] using rev_ind.
  - exact H0.
  - rewrite run_snoc. now apply Hstep.
Qed.

Lemma step_Edit_closed (F : Form) (t : field) (v : jsstring) :
  step F (Edit t v) = dispatchInput t (setValue t v F).
Proof. reflexivity. Qed.

Lemma upToDate_step (F : Form) (a : action) : upToDate F -> upToDate (step F a).
Proof.
  intros H. destruct a as [t v|].
  - rewrite step_Edit_closed. destruct t.
    + rewrite dispatchInput_name_closed.
      destruct F as [[] [nv n] ns [yv m] ys co di]; cbn in *; auto.
    + rewrite dispatchInput_year_closed.
      destruct F as [[] [nv n] ns [yv m] ys co di]; cbn in *; intuition.
  - unfold step. rewrite checkValidity_closed.
    destruct (valid FName F && valid FYear F) eqn:Hok.
    + rewrite onSubmit_closed, revalidated_closed.
      destruct F as [ws [nv n] ns [yv m] ys co di]. cbn. auto.
    + destruct F as [[] [nv n] ns [yv m] ys co di]; cbn in *; auto.
Qed.

Lemma upToDate_run (l : list action) : upToDate (run initial l).
Proof.
  apply run_invariant; [now split | apply upToDate_step].
Qed.

(* ================================================================== *)
(** * Properties of the component *)
(* ================================================================== *)

(** ** The Year rules *)

(** C1. Once the form was submitted, an [input] event on the Year field
    stores the message of the first rule that matches, in this order:
    trimmed value empty, "Field is required"; not one or more ASCII digits
    or parsed as NaN, "Field must be a number"; parsed number below 2000,
    "Number must be greater or equal than 2000"; Name exactly "Newborn"
    and parsed number below 2024, "Newborn can not be born before 2024";
    otherwise the empty message.  The page shows that message while it is
    not empty.  The same holds when the user types a new Year value. *)
Theorem C1_year_rules_first_match (F : Form) :
  wasSubmitted F = true ->
  (let m := Spec.year_message (value (yearInput F)) (value (nameInput F)) in
   validationMessage (yearInput (dispatchInput FYear F)) = m /\
   displayed FYear (dispatchInput FYear F) = if isEmpty m then None else Some m)
  /\
  (forall y : jsstring,
     validationMessage (yearInput (step F (Edit FYear y)))
     = Spec.year_message y (value (nameInput F))).
Proof.
  intros Hws. split.
  - rewrite dispatchInput_year_closed, Hws. cbn.
    split; [reflexivity|].
    unfold displayed, valid. cbn.
    now destruct (Spec.year_message _ _).
  - intros y. rewrite step_Edit_closed, dispatchInput_year_closed.
    destruct F as [ws ni ns yi ys co di]. cbn in *. now subst ws.
Qed.

Lemma C1_year_rules_first_match_witness :
  validationMessage
    (yearInput (step (run initial [Edit FName (lit "Newborn"); Submit])
                     (Edit FYear (lit "2023"))))
  = lit "Newborn can not be born before 2024".
Proof.
  exact (proj2 (C1_year_rules_first_match
                  (run initial [Edit FName (lit "Newborn"); Submit])
                  eq_refl) (lit "2023")).
Defined.

(** ** The Name rule *)

(** C2, counterexample.  The value "A" followed by U+2028 (a line
    separator, which a text input keeps) is not empty when trimmed and
    starts with an uppercase ASCII letter, yet [/^[A-Z].*$/] does not match
    it and the message is "Field is invalid". *)
Lemma C2_name_rule_counterexample :
  Spec.trimmed_empty lineSeparatorName = false /\
  Spec.starts_with_uppercase_ascii lineSeparatorName = true /\
  validationMessage
    (nameInput (step submittedEmpty (Edit FName lineSeparatorName)))
  = lit "Field is invalid" /\
  ~ name_rule_as_worded.
Proof.
  repeat split; try reflexivity.
  intros H.
  specialize (H (setValue FName lineSeparatorName submittedEmpty) eq_refl).
  vm_compute in H. discriminate H.
Qed.

(** C2, amended.  Once the form was submitted, an [input] event on the Name
    field stores "Field is invalid" exactly when the trimmed value is empty
    or the value does not match [/^[A-Z].*$/], that is, it does not start
    with an uppercase ASCII letter or a line terminator (LF, CR, U+2028,
    U+2029) follows its first code unit; otherwise it stores the empty
    message.  Emptiness and mismatch give the same message. *)
Theorem C2_name_rule_regex (F : Form) :
  wasSubmitted F = true ->
  let v := value (nameInput F) in
  let m := validationMessage (nameInput (dispatchInput FName F)) in
  m = Spec.name_message_regex v /\
  (m = lit "Field is invalid" <->
   Spec.trimmed_empty v = true
   \/ Spec.starts_with_uppercase_ascii v = false
   \/ Spec.single_line_after_first v = false) /\
  (m <> lit "Field is invalid" -> m = []).
Proof.
  intros Hws v m. subst m.
  rewrite dispatchInput_name_closed, Hws. cbn. fold v.
  split; [reflexivity|].
  unfold Spec.name_message_regex.
  destruct (Spec.trimmed_empty v), (Spec.starts_with_uppercase_ascii v),
    (Spec.single_line_after_first v); cbn;
    (split;
     [split; [intros H; try discriminate H; auto
             | intros [H|[H|H]]; (discriminate H || reflexivity)]
     | intros H; (reflexivity || now elim H)]).
Qed.

Lemma C2_name_rule_regex_witness :
  validationMessage
    (nameInput (dispatchInput FName
                  (setValue FName (lit "alice") submittedEmpty)))
  = lit "Field is invalid".
Proof.
  exact (proj1 (C2_name_rule_regex
                  (setValue FName (lit "alice") submittedEmpty) eq_refl)).
Defined.

(** ** Submission *)

Lemma console_onSubmit (F : Form) :
  console (onSubmit F)
  = if allValid (revalidated F)
    then console F ++ [submissionOf F]
    else console F.
Proof.
  rewrite onSubmit_closed, revalidated_closed.
  unfold allValid, valid, submissionOf. cbn.
  destruct (isEmpty (Spec.name_message_regex _)); [|reflexivity].
  destruct (Spec.year_message _ _) eqn:Hm; [|reflexivity]. cbn.
  apply year_message_empty in Hm as (_ & Hd & _).
  apply andb_true_iff in Hd as [_ Hd].
  now rewrite (toScalarValueString_digits _ Hd).
Qed.

(** C3 as worded, refuted.  With the Name "A" followed by an unpaired
    surrogate and the Year "2024" both fields are valid, and the record
    that is logged holds the Name with U+FFFD in place of the surrogate,
    not the raw value: [onSubmit$] reads the values from a [FormData]. *)
Lemma C3_raw_name_counterexample :
  allValid (revalidated (run initial [Edit FName loneSurrogateName;
                                      Edit FYear (lit "2024")])) = true
  /\ console (step (run initial [Edit FName loneSurrogateName;
                                 Edit FYear (lit "2024")]) Submit)
     = [mkSubmission (lit "A" ++ [65533%N]) (ofN 2024)]
  /\ rawSubmissionOf (run initial [Edit FName loneSurrogateName;
                                   Edit FYear (lit "2024")])
     = mkSubmission (lit "A" ++ [55296%N]) (ofN 2024)
  /\ ~ submit_logs_raw_values.
Proof.
  split; [vm_compute; reflexivity|].
  split; [vm_compute; reflexivity|].
  split; [vm_compute; reflexivity|].
  intros H.
  specialize (H (run initial [Edit FName loneSurrogateName;
                              Edit FYear (lit "2024")])).
  vm_compute in H. discriminate H.
Qed.

(** C3, amended.  [onSubmit$] passes a record to the console exactly when
    both fields are valid after the re-validation; otherwise the console is
    left as it was.  The record is built from the form data: its name is
    the Name value with every unpaired surrogate replaced by U+FFFD, which
    is the raw value when that holds no surrogate, and its year is [Number]
    of the Year field's raw value.  The same holds of a submission started
    by the user in any state the form can reach. *)
Theorem C3_submit_logs_iff_all_valid :
  (forall F : Form,
     console (onSubmit F)
     = if allValid (revalidated F)
       then console F ++ [submissionOf F]
       else console F)
  /\
  (forall F : Form,
     forallb notSurrogate (value (nameInput F)) = true ->
     submissionOf F = rawSubmissionOf F)
  /\
  (forall l : list action,
     console (step (run initial l) Submit)
     = if allValid (revalidated (run initial l))
       then console (run initial l) ++ [submissionOf (run initial l)]
       else console (run initial l)).
Proof.
  split; [exact console_onSubmit|]. split.
  { intros F H. unfold submissionOf, rawSubmissionOf.
    now rewrite (toScalarValueString_id _ H). }
  intros l. pose proof (upToDate_run l) as Hup.
  set (F := run initial l) in *.
  unfold step.
  destruct (valid FName F && valid FYear F) eqn:Hok.
  - apply andb_true_iff in Hok as [Hn Hy].
    rewrite (checkValidity_valid F Hn Hy). apply console_onSubmit.
  - rewrite checkValidity_closed, Hok. cbn [console].
    replace (allValid (revalidated F)) with false; [reflexivity|].
    rewrite revalidated_closed. unfold allValid, valid. cbn.
    unfold upToDate in Hup. unfold valid in Hok. cbn [input] in Hok.
    destruct (wasSubmitted F).
    + destruct Hup as [<- <-]. now rewrite Hok.
    + destruct Hup as [Hn Hy]. rewrite Hn, Hy in Hok. discriminate.
Qed.

Lemma C3_submit_logs_iff_all_valid_witness :
  submissionOf (run initial [Edit FName (lit "Newborn"); Edit FYear (lit "2024")])
  = mkSubmission (lit "Newborn") (Number (lit "2024")).
Proof.
  exact (proj1 (proj2 C3_submit_logs_iff_all_valid)
               (run initial [Edit FName (lit "Newborn"); Edit FYear (lit "2024")])
               eq_refl).
Defined.

(** ** Before the first submission *)

(** C4. While the form was never submitted, an [input] event on either
    field changes nothing but the log of events: no message is stored, no
    [invalid] event is fired, the spans keep their text.  Hence after any
    run without a submission both messages are empty and the page shows
    none, whatever was typed. *)
Theorem C4_no_validation_before_submit :
  (forall (F : Form) (t : field),
     wasSubmitted F = false ->
     view (dispatchInput t F) = view F /\
     dispatched (dispatchInput t F) = dispatched F ++ [(t, EInput)])
  /\
  (forall l : list action,
     forallb (fun a => negb (isSubmit a)) l = true ->
     forall t : field,
       validationMessage (input t (run initial l)) = [] /\
       displayed t (run initial l) = None /\
       nextElementSibling_textContent t (run initial l)
       = nextElementSibling_textContent t initial).
Proof.
  assert (Hnop : forall (F : Form) (t : field),
             wasSubmitted F = false ->
             view (dispatchInput t F) = view F /\
             dispatched (dispatchInput t F) = dispatched F ++ [(t, EInput)]).
  { intros F t Hws. destruct t.
    - rewrite dispatchInput_name_closed, Hws. now destruct F.
    - rewrite dispatchInput_year_closed, Hws. now destruct F. }
  split; [exact Hnop|].
  intros l Hl.
  assert (Hview : view (run initial l)
                  = (false, mkInput (value (nameInput (run initial l))) [], [160%N],
                     mkInput (value (yearInput (run initial l))) [], [160%N], [])).
  { induction l as [|a l IH] using rev_ind; [reflexivity|].
    rewrite forallb_app in Hl. apply andb_true_iff in Hl as [Hl Ha].
    specialize (IH Hl). rewrite run_snoc.
    destruct a as [t v|]; [|discriminate].
    rewrite step_Edit_closed.
    unfold view in IH.
    destruct t;
      [rewrite dispatchInput_name_closed | rewrite dispatchInput_year_closed];
      destruct (run initial l) as [ws [nv n] ns [yv m] ys co di];
      cbn in IH |- *; injection IH as -> -> -> -> -> ->; reflexivity. }
  intros t. unfold view in Hview.
  unfold displayed, valid.
  destruct (run initial l) as [ws [nv n] ns [yv m] ys co di].
  cbn in Hview. injection Hview as -> -> -> -> -> ->.
  destruct t; cbn; auto.
Qed.

Lemma C4_no_validation_before_submit_witness :
  validationMessage
    (input FYear (run initial [Edit FName (lit "alice"); Edit FYear (lit "12x")]))
  = [].
Proof.
  exact (proj1 (proj2 C4_no_validation_before_submit
                  [Edit FName (lit "alice"); Edit FYear (lit "12x")]
                  eq_refl FYear)).
Defined.

(** ** The dependency of Year on Name *)

(** C5. Once the form was submitted, an [input] event on the Name field
    first stores (and reports) Name's own message and then dispatches
    [input] at the Year field, whose message is computed from the Name
    value of that moment; typing a new Name therefore re-validates Year
    against the new Name.  An [input] event on the Year field dispatches
    nothing at the Name field and leaves Name's message and span alone. *)
Theorem C5_name_revalidates_year :
  (forall F : Form,
     wasSubmitted F = true ->
     validationMessage (nameInput (dispatchInput FName F))
     = Spec.name_message_regex (value (nameInput F)) /\
     validationMessage (yearInput (dispatchInput FName F))
     = Spec.year_message (value (yearInput F)) (value (nameInput F)) /\
     dispatched (dispatchInput FName F)
     = dispatched F
         ++ (FName, EInput)
            :: invalidEvent FName (validationMessage (nameInput (dispatchInput FName F)))
         ++ (FYear, EInput)
            :: invalidEvent FYear (validationMessage (yearInput (dispatchInput FName F))))
  /\
  (forall (F : Form) (n : jsstring),
     wasSubmitted F = true ->
     validationMessage (yearInput (step F (Edit FName n)))
     = Spec.year_message (value (yearInput F)) n)
  /\
  (forall F : Form,
     nameInput (dispatchInput FYear F) = nameInput F /\
     nameSpan (dispatchInput FYear F) = nameSpan F /\
     forall e : eventType,
       In (FName, e) (dispatched (dispatchInput FYear F)) ->
       In (FName, e) (dispatched F)).
Proof.
  split; [|split].
  - intros F Hws. rewrite dispatchInput_name_closed, Hws.
    cbn. unfold invalidEvent. auto.
  - intros F n Hws. rewrite step_Edit_closed, dispatchInput_name_closed.
    destruct F as [ws ni ns yi ys co di]. cbn in *. now subst ws.
  - intros F. rewrite dispatchInput_year_closed.
    destruct F as [[] ni ns yi ys co di]; cbn; repeat split; auto; intros e He.
    + apply in_app_or in He as [He|He]; [exact He|].
      destruct He as [He|He]; [discriminate|].
      destruct (isEmpty _); [destruct He|].
      destruct He as [He|[]]; discriminate.
    + apply in_app_or in He as [He|He]; [exact He|].
      destruct He as [He|[]]; discriminate.
Qed.

Lemma C5_name_revalidates_year_witness :
  validationMessage
    (yearInput (step (run initial [Edit FYear (lit "2023"); Submit])
                     (Edit FName (lit "Newborn"))))
  = lit "Newborn can not be born before 2024".
Proof.
  exact (proj1 (proj2 C5_name_revalidates_year)
               (run initial [Edit FYear (lit "2023"); Submit])
               (lit "Newborn") eq_refl).
Defined.

(** ** The was-submitted flag *)

Lemma wasSubmitted_step (F : Form) (a : action) :
  wasSubmitted F = true -> wasSubmitted (step F a) = true.
Proof.
  intros Hws. destruct a as [t v|].
  - rewrite step_Edit_closed. destruct t.
    + rewrite dispatchInput_name_closed.
      destruct F as [ws ni ns yi ys co di]; cbn in *. now subst ws.
    + rewrite dispatchInput_year_closed.
      destruct F as [ws ni ns yi ys co di]; cbn in *. now subst ws.
  - unfold step. rewrite checkValidity_closed.
    destruct (valid FName F && valid FYear F).
    + now rewrite onSubmit_closed.
    + exact Hws.
Qed.

Lemma wasSubmitted_run (F : Form) (l : list action) :
  wasSubmitted F = true -> wasSubmitted (run F l) = true.
Proof.
  revert F. induction l as [|a l IH]; intros F Hws; [exact Hws|].
  cbn. apply IH, wasSubmitted_step, Hws.
Qed.

(** C6. The flag is unset in the form as rendered and stays unset as long
    as no submission is attempted; [onSubmit$] sets it; no step of the form
    unsets it; so it is set after every run that contains a submission. *)
Theorem C6_wasSubmitted_latch :
  wasSubmitted initial = false
  /\
  (forall l : list action,
     forallb (fun a => negb (isSubmit a)) l = true ->
     wasSubmitted (run initial l) = false)
  /\
  (forall F : Form, wasSubmitted (onSubmit F) = true)
  /\
  (forall (F : Form) (a : action),
     wasSubmitted F = true -> wasSubmitted (step F a) = true)
  /\
  (forall l1 l2 : list action,
     wasSubmitted (run initial (l1 ++ Submit :: l2)) = true).
Proof.
  split; [reflexivity|]. split; [|split; [|split]].
  - intros l Hl. induction l as [|a l IH] using rev_ind; [reflexivity|].
    rewrite forallb_app in Hl. apply andb_true_iff in Hl as [Hl Ha].
    specialize (IH Hl). rewrite run_snoc.
    destruct a as [t v|]; [|discriminate].
    rewrite step_Edit_closed.
    destruct t;
      [rewrite dispatchInput_name_closed | rewrite dispatchInput_year_closed];
      destruct (run initial l) as [ws ni ns yi ys co di];
      cbn in IH |- *; subst ws; reflexivity.
  - intros F. now rewrite onSubmit_closed.
  - exact wasSubmitted_step.
  - intros l1 l2. rewrite run_app. cbn [run fold_left].
    apply wasSubmitted_run.
    pose proof (upToDate_run l1) as Hup.
    set (F := run initial l1) in *.
    destruct (wasSubmitted F) eqn:Hws.
    + now apply wasSubmitted_step.
    + unfold upToDate in Hup. rewrite Hws in Hup. destruct Hup as [Hn Hy].
      unfold step. rewrite checkValidity_valid.
      * now rewrite onSubmit_closed.
      * unfold valid. cbn [input]. now rewrite Hn.
      * unfold valid. cbn [input]. now rewrite Hy.
Qed.

Lemma C6_wasSubmitted_latch_witness :
  wasSubmitted (step (run initial [Edit FName (lit "Alice"); Submit])
                     (Edit FYear (lit "1999")))
  = true.
Proof.
  exact (proj1 (proj2 (proj2 (proj2 C6_wasSubmitted_latch)))
               (run initial [Edit FName (lit "Alice"); Submit])
               (Edit FYear (lit "1999")) eq_refl).
Defined.

(** ** The parse at submission *)

Lemma Number_of_digits_not_NaN (v : jsstring) :
  matches v re_year = true -> isNaN (Number v) = false.
Proof.
  rewrite matches_re_year. intros H.
  rewrite (Number_digits v H). apply ofN_not_NaN.
Qed.

Lemma console_step_Edit (F : Form) (t : field) (v : jsstring) :
  console (step F (Edit t v)) = console F.
Proof.
  rewrite step_Edit_closed. destruct t.
  - rewrite dispatchInput_name_closed.
    now destruct F as [[] ni ns yi ys co di].
  - rewrite dispatchInput_year_closed.
    now destruct F as [[] ni ns yi ys co di].
Qed.

Lemma allValid_revalidated (F : Form) :
  allValid (revalidated F) = true ->
  matches (value (yearInput F)) re_year = true /\
  lt (Number (value (yearInput F))) (ofN 2000) = false.
Proof.
  rewrite revalidated_closed. unfold allValid, valid. cbn.
  intros H. apply andb_true_iff in H as [_ Hy].
  destruct (Spec.year_message _ _) eqn:Hm; [|discriminate].
  apply year_message_empty in Hm as (_ & Hd & _ & H2000 & _).
  rewrite matches_re_year. auto.
Qed.

(** C7. [Number] never gives NaN on a value that matches [/^\d+$/], so
    the [isNaN] test of the second Year rule adds nothing to the pattern
    test.  [onSubmit$] logs a record only when the Year field is valid,
    and then the Year value matches the pattern, the record is the one of
    the form data, and the logged year is the Number value of the integer
    the Year writes, which is at least 2000, and not NaN.  No record with a NaN year is ever logged, in any run of the form.
    (Every handler is a total function: none has a failing path.) *)
Theorem C7_parse_is_guarded :
  (forall v : jsstring, matches v re_year = true -> isNaN (Number v) = false)
  /\
  (forall v : jsstring,
     negb (matches v re_year) || isNaN (Number v) = negb (matches v re_year))
  /\
  (forall (F : Form) (r : submission),
     console (onSubmit F) = console F ++ [r] ->
     valid FYear (onSubmit F) = true /\
     matches (value (yearInput F)) re_year = true /\
     r = submissionOf F /\
     year r = ofN (digitsMV 10 (value (yearInput F))) /\
     (2000 <= digitsMV 10 (value (yearInput F)))%N /\
     isNaN (year r) = false)
  /\
  (forall (l : list action) (r : submission),
     In r (console (run initial l)) -> isNaN (year r) = false).
Proof.
  split; [exact Number_of_digits_not_NaN|]. split; [|split].
  - intros v. destruct (matches v re_year) eqn:Hm; [|reflexivity].
    cbn. now apply Number_of_digits_not_NaN.
  - intros F r Hlog.
    rewrite console_onSubmit in Hlog.
    destruct (allValid (revalidated F)) eqn:Hok.
    + apply app_inv_head in Hlog. injection Hlog as <-.
      destruct (allValid_revalidated F Hok) as [Hd H2000].
      pose proof Hd as Hd'. rewrite matches_re_year in Hd'.
      repeat split; auto.
      * rewrite onSubmit_closed. cbn [input yearInput].
        unfold allValid in Hok. now apply andb_true_iff in Hok as [_ Hy].
      * apply (Number_digits _ Hd').
      * rewrite (Number_digits _ Hd'), lt_ofN_2000 in H2000.
        now apply N.ltb_ge.
      * now apply Number_of_digits_not_NaN.
    + exfalso. apply (f_equal (@List.length submission)) in Hlog.
      rewrite length_app in Hlog. cbn in Hlog. lia.
  - intros l.
    apply (run_invariant
             (fun F => forall r, In r (console F) -> isNaN (year r) = false)).
    + intros r [].
    + intros F a IH r Hr. destruct a as [t v|].
      * rewrite console_step_Edit in Hr. auto.
      * unfold step in Hr.
        destruct (valid FName F && valid FYear F) eqn:Hok;
          [|rewrite checkValidity_closed, Hok in Hr; auto].
        apply andb_true_iff in Hok as [Hn Hy].
        rewrite (checkValidity_valid F Hn Hy), console_onSubmit in Hr.
        destruct (allValid (revalidated F)) eqn:Hall; [|auto].
        apply in_app_or in Hr as [Hr|[<-|[]]]; [auto|].
        destruct (allValid_revalidated F Hall) as [Hd _].
        now apply Number_of_digits_not_NaN.
Qed.

Lemma C7_parse_is_guarded_witness : isNaN (Number (lit "2024")) = false.
Proof.
  exact (proj1 C7_parse_is_guarded (lit "2024") eq_refl).
Defined.

(** ** Year and the validity of Name *)

Lemma year_message_newborn_only (y n1 n2 : jsstring) :
  streq n1 (lit "Newborn") = streq n2 (lit "Newborn") ->
  Spec.year_message y n1 = Spec.year_message y n2.
Proof. intros H. unfold Spec.year_message. now rewrite H. Qed.

(** C8. Take two forms with the same was-submitted flag and the same Year
    field, whose Name values agree on being exactly "Newborn".  An [input]
    event on the Year field leaves the two Year fields equal, with the same
    message shown; so does an [input] event on the Name field.  Whether
    the Name values pass Name's own rule plays no part. *)
Theorem C8_year_ignores_name_validity (F1 F2 : Form) :
  wasSubmitted F1 = wasSubmitted F2 ->
  yearInput F1 = yearInput F2 ->
  yearSpan F1 = yearSpan F2 ->
  (value (nameInput F1) = lit "Newborn"
   <-> value (nameInput F2) = lit "Newborn") ->
  (yearInput (dispatchInput FYear F1) = yearInput (dispatchInput FYear F2) /\
   displayed FYear (dispatchInput FYear F1)
   = displayed FYear (dispatchInput FYear F2))
  /\
  (yearInput (dispatchInput FName F1) = yearInput (dispatchInput FName F2) /\
   displayed FYear (dispatchInput FName F1)
   = displayed FYear (dispatchInput FName F2)).
Proof.
  intros Hws Hy Hs Hn.
  rewrite <- !streq_eq in Hn. apply eq_true_iff_eq in Hn.
  rewrite !dispatchInput_year_closed, !dispatchInput_name_closed.
  destruct F1 as [ws1 ni1 ns1 yi1 ys1 co1 di1].
  destruct F2 as [ws2 ni2 ns2 yi2 ys2 co2 di2].
  cbn in Hws, Hy, Hs, Hn. subst ws2 yi2 ys2.
  cbn [wasSubmitted yearInput nameInput yearSpan].
  rewrite (year_message_newborn_only (value yi1) _ _ Hn).
  destruct ws1; cbn; auto.
Qed.

Lemma alice_not_Newborn :
  value (nameInput (setValue FYear (lit "2005")
                      (setValue FName (lit "alice") submittedEmpty)))
  <> lit "Newborn".
Proof. discriminate. Defined.

Lemma Alice_not_Newborn :
  value (nameInput (setValue FYear (lit "2005")
                      (setValue FName (lit "Alice") submittedEmpty)))
  <> lit "Newborn".
Proof. discriminate. Defined.

Lemma C8_year_ignores_name_validity_witness :
  yearInput (dispatchInput FYear
               (setValue FYear (lit "2005")
                  (setValue FName (lit "alice") submittedEmpty)))
  = yearInput (dispatchInput FYear
                 (setValue FYear (lit "2005")
                    (setValue FName (lit "Alice") submittedEmpty))).
Proof.
  exact (proj1 (proj1 (C8_year_ignores_name_validity
           (setValue FYear (lit "2005")
              (setValue FName (lit "alice") submittedEmpty))
           (setValue FYear (lit "2005")
              (setValue FName (lit "Alice") submittedEmpty))
           eq_refl eq_refl eq_refl
           (conj (fun H => False_ind _ (alice_not_Newborn H))
                 (fun H => False_ind _ (Alice_not_Newborn H)))))).
Defined.

(** ** The digit check and [Number] *)

Lemma not_all_digits (v : jsstring) :
  (exists c, In c v /\ digit c = false) -> forallb digit v = false.
Proof.
  intros (c & Hin & Hc).
  destruct (forallb digit v) eqn:Hall; [|reflexivity].
  rewrite forallb_forall in Hall. specialize (Hall c Hin). congruence.
Qed.

(** C9. Once the form was submitted, a Year value that is not empty when
    trimmed and holds a code unit outside 0-9 gets "Field must be a
    number".  This rejects more than [Number] does: " 2005", "+2005" and
    "2e3" get that message although [Number] reads them as 2005, 2005 and
    2000. *)
Theorem C9_digit_check_stricter_than_Number :
  (forall F : Form,
     wasSubmitted F = true ->
     Spec.trimmed_empty (value (yearInput F)) = false ->
     (exists c : N, In c (value (yearInput F)) /\ digit c = false) ->
     validationMessage (yearInput (dispatchInput FYear F))
     = lit "Field must be a number")
  /\
  (Number (lit " 2005") = ofN 2005 /\
   Number (lit "+2005") = ofN 2005 /\
   Number (lit "2e3") = ofN 2000 /\
   forallb readsAsYear [lit " 2005"; lit "+2005"; lit "2e3"] = true /\
   forallb (fun v => streq (validationMessage
                              (yearInput (step submittedEmpty (Edit FYear v))))
                           (lit "Field must be a number"))
           [lit " 2005"; lit "+2005"; lit "2e3"] = true).
Proof.
  split.
  - intros F Hws Htrim Hc.
    rewrite dispatchInput_year_closed, Hws. cbn.
    unfold Spec.year_message. rewrite Htrim.
    unfold Spec.one_or_more_ascii_digits.
    now rewrite (not_all_digits _ Hc), andb_false_r.
  - repeat split; vm_compute; reflexivity.
Qed.

Lemma C9_digit_check_stricter_than_Number_witness :
  validationMessage
    (yearInput (dispatchInput FYear
                  (setValue FYear (lit "2e3") submittedEmpty)))
  = lit "Field must be a number".
Proof.
  refine (proj1 C9_digit_check_stricter_than_Number
            (setValue FYear (lit "2e3") submittedEmpty) eq_refl eq_refl _).
  exists 101%N. split; [right; left; reflexivity | reflexivity].
Defined.

(** ** Idempotence *)

(** C10. Dispatching [input] at a field twice in a row leaves the form
    (flag, values, messages, spans, console) as dispatching it once does.
    In [onSubmit$] the Year handler runs twice, once dispatched by the Name
    handler and once by the loop over the inputs; the second run changes
    nothing of the form but the log of events. *)
Theorem C10_validation_idempotent :
  (forall (t : field) (F : Form),
     view (dispatchInput t (dispatchInput t F)) = view (dispatchInput t F))
  /\
  (forall F : Form,
     revalidated F
     = dispatchInput FYear (dispatchInput FName (setAttribute_wasSubmitted F)) /\
     view (revalidated F)
     = view (dispatchInput FName (setAttribute_wasSubmitted F)) /\
     dispatched (revalidated F)
     = dispatched F
         ++ (FName, EInput)
            :: invalidEvent FName (validationMessage (nameInput (revalidated F)))
         ++ (FYear, EInput)
            :: invalidEvent FYear (validationMessage (yearInput (revalidated F)))
         ++ (FYear, EInput)
            :: invalidEvent FYear (validationMessage (yearInput (revalidated F)))).
Proof.
  split.
  - intros t F. destruct t.
    + rewrite !dispatchInput_name_closed.
      destruct F as [[] [nv n] ns [yv m] ys co di]; cbn; [|reflexivity].
      unfold view; cbn.
      destruct (Spec.name_message_regex nv), (Spec.year_message yv nv);
        reflexivity.
    + rewrite !dispatchInput_year_closed.
      destruct F as [[] [nv n] ns [yv m] ys co di]; cbn; [|reflexivity].
      unfold view; cbn.
      destruct (Spec.year_message yv nv); reflexivity.
  - intros F. split; [reflexivity|]. split.
    + rewrite revalidated_closed, dispatchInput_name_closed.
      destruct F as [ws ni ns yi ys co di]. reflexivity.
    + rewrite revalidated_closed. reflexivity.
Qed.

(* ================================================================== *)
(** * Worked examples *)
(* ================================================================== *)

Section Examples.

(** An empty Name with Year "2005": Name is reported, Year is valid,
    nothing is logged. *)
Example empty_name_2005 :
  let F := run initial [Edit FYear (lit "2005"); Submit] in
  (displayed FName F, displayed FYear F, console F)
  = (Some (lit "Field is invalid"), None, []).
Proof. vm_compute. reflexivity. Qed.

Example alice_1999 :
  let F := run initial [Edit FName (lit "Alice"); Edit FYear (lit "1999"); Submit] in
  (displayed FName F, displayed FYear F, console F)
  = (None, Some (lit "Number must be greater or equal than 2000"), []).
Proof. vm_compute. reflexivity. Qed.

Example newborn_2023 :
  let F := run initial [Edit FName (lit "Newborn"); Edit FYear (lit "2023"); Submit] in
  (displayed FName F, displayed FYear F, console F)
  = (None, Some (lit "Newborn can not be born before 2024"), []).
Proof. vm_compute. reflexivity. Qed.

Example newborn_2024 :
  let F := run initial [Edit FName (lit "Newborn"); Edit FYear (lit "2024"); Submit] in
  (displayed FName F, displayed FYear F, console F)
  = (None, None, [mkSubmission (lit "Newborn") (ofN 2024)]).
Proof. vm_compute. reflexivity. Qed.

(** After a rejected submission the fields are validated as the user types,
    and a span that is hidden again keeps its last text. *)
Example fixed_after_rejection :
  let F := run initial [Edit FName (lit "alice"); Edit FYear (lit "2005"); Submit;
                        Edit FName (lit "Alice")] in
  (displayed FName F, nameSpan F, console (step F Submit))
  = (None, lit "Field is invalid", [mkSubmission (lit "Alice") (ofN 2005)]).
Proof. vm_compute. reflexivity. Qed.

(** Leading zeros are digits too. *)
Example leading_zeros :
  Spec.year_message (lit "0002024") (lit "Newborn") = []
  /\ Number (lit "0002024") = ofN 2024.
Proof. split; vm_compute; reflexivity. Qed.

(** A Year of 400 digits is valid and is logged as +Infinity. *)
Example year_of_400_digits :
  Spec.year_message (repeat 57%N 400) (lit "Newborn") = []
  /\ Number (repeat 57%N 400) = S754_infinity false.
Proof. split; vm_compute; reflexivity. Qed.

(** [Number] follows the StringNumericLiteral grammar. *)
Example Number_samples :
  Number (lit "") = S754_zero false
  /\ Number (lit "  ") = S754_zero false
  /\ Number (lit "-0") = S754_zero true
  /\ Number (lit "0x7d0") = ofN 2000
  /\ Number (lit "2e3") = ofN 2000
  /\ Number (lit "20.05e2") = ofN 2005
  /\ Number (lit "0.1") = S754_finite false 7205759403792794 (-56)
  /\ Number (lit "9007199254740993") = ofN 9007199254740992
  /\ Number (lit "5e-324") = S754_finite false 1 (-1074)
  /\ Number (lit "1e309") = S754_infinity false
  /\ Number (lit "-Infinity") = S754_infinity true
  /\ Number (lit "12a") = S754_nan
  /\ Number (lit "1_000") = S754_nan
  /\ Number (lit ".") = S754_nan
  /\ Number (lit "5e") = S754_nan
  /\ Number (lit "0x") = S754_nan.
Proof. repeat split; vm_compute; reflexivity. Qed.

(** The conversion to a scalar-value string keeps a surrogate pair and
    replaces an unpaired surrogate. *)
Example toScalarValueString_samples :
  toScalarValueString [65; 55357; 56832; 66]%N = [65; 55357; 56832; 66]%N
  /\ toScalarValueString [65; 55357; 66]%N = [65; 65533; 66]%N
  /\ toScalarValueString [56832; 55357]%N = [65533; 65533]%N
  /\ toScalarValueString (lit "Newborn") = lit "Newborn".
Proof. repeat split; vm_compute; reflexivity. Qed.

End Examples.

(* ================================================================== *)
(** * Further properties of the handlers *)
(* ================================================================== *)

(** ** More facts about the platform layer *)

Lemma upperAZ_not_space (c : N) : upperAZ c = true -> isStrWhiteSpaceChar c = false.
Proof.
  unfold upperAZ. rewrite andb_true_iff, !N.leb_le. intros H.
  unfold isStrWhiteSpaceChar, isWhiteSpace, isLineTerminator.
  repeat match goal with
         | |- context [N.eqb c ?k] =>
             replace (N.eqb c k) with false by (symmetry; apply N.eqb_neq; lia)
         end.
  replace (N.leb 8192 c) with false by (symmetry; apply N.leb_gt; lia).
  reflexivity.
Qed.

Lemma trimStart_empty (s : jsstring) :
  trimStart s = [] -> forallb isStrWhiteSpaceChar s = true.
Proof.
  induction s as [|c s IH]; [reflexivity|]. simpl.
  destruct (isStrWhiteSpaceChar c); [exact IH | discriminate].
Qed.

(** A value whose first code unit is no white space is not blank. *)
Lemma trim_not_empty (c : N) (r : jsstring) :
  isStrWhiteSpaceChar c = false -> isEmpty (trim (c :: r)) = false.
Proof.
  intros Hc. unfold trim, trimEnd. cbn [trimStart]. rewrite Hc.
  destruct (trimStart (rev (c :: r))) as [|d s] eqn:Ht.
  - apply trimStart_empty in Ht. rewrite forallb_rev in Ht.
    cbn [forallb] in Ht. rewrite Hc in Ht. discriminate.
  - destruct (rev (d :: s)) eqn:Hr; [|reflexivity].
    apply (f_equal (@List.length N)) in Hr. rewrite length_rev in Hr.
    discriminate.
Qed.

Lemma matches_re_name_not_blank (v : jsstring) :
  matches v re_name = true -> Spec.trimmed_empty v = false.
Proof.
  rewrite matches_re_name. destruct v as [|c r]; [discriminate|].
  intros H. apply andb_true_iff in H as [Hc _].
  apply trim_not_empty, upperAZ_not_space, Hc.
Qed.

Lemma name_message_regex_matches (v : jsstring) :
  Spec.name_message_regex v = if matches v re_name then [] else msg_invalid.
Proof.
  unfold Spec.name_message_regex.
  replace (Spec.starts_with_uppercase_ascii v && Spec.single_line_after_first v)
    with (matches v re_name)
    by (rewrite matches_re_name; destruct v; reflexivity).
  destruct (matches v re_name) eqn:Hm.
  - now rewrite (matches_re_name_not_blank v Hm).
  - now rewrite orb_true_r.
Qed.

Lemma year_message_valid_iff (y n : jsstring) :
  Spec.year_message y n = [] <->
  Spec.one_or_more_ascii_digits y = true /\
  (2000 <= yearNumber y)%N /\
  (n = lit "Newborn" -> (2024 <= yearNumber y)%N).
Proof.
  unfold yearNumber. split.
  - intros H. pose proof (year_message_empty y n H) as (_ & Hd & _).
    rewrite (year_message_of_digits y n Hd) in H.
    split; [exact Hd|].
    destruct (N.ltb_spec (digitsMV 10 y) 2000); [discriminate|].
    split; [assumption|]. intros ->.
    rewrite streq_refl in H. cbn [andb] in H.
    destruct (N.ltb_spec (digitsMV 10 y) 2024); [discriminate|assumption].
  - intros (Hd & H2000 & Hnb).
    rewrite (year_message_of_digits y n Hd).
    destruct (N.ltb_spec (digitsMV 10 y) 2000); [lia|].
    destruct (streq n (lit "Newborn")) eqn:Hn; [|reflexivity].
    apply streq_eq in Hn. specialize (Hnb Hn).
    destruct (N.ltb_spec (digitsMV 10 y) 2024); [lia|reflexivity].
Qed.

(** A submission by the user, in closed form. *)
Lemma step_Submit_closed (F : Form) :
  step F Submit =
  if allValid F then onSubmit F
  else mkForm (wasSubmitted F)
              (nameInput F)
              (if valid FName F then nameSpan F else validationMessage (nameInput F))
              (yearInput F)
              (if valid FYear F then yearSpan F else validationMessage (yearInput F))
              (console F)
              (dispatched F
                 ++ invalidEvent FName (validationMessage (nameInput F))
                 ++ invalidEvent FYear (validationMessage (yearInput F))).
Proof.
  unfold step, allValid.
  destruct (valid FName F && valid FYear F) eqn:Hok.
  - apply andb_true_iff in Hok as [Hn Hy].
    now rewrite (checkValidity_valid F Hn Hy).
  - now rewrite checkValidity_closed, Hok.
Qed.

(** ** Invariants of the runs *)

Lemma value_dispatchInput (t t' : field) (F : Form) :
  value (input t (dispatchInput t' F)) = value (input t F).
Proof.
  destruct t';
    [rewrite dispatchInput_name_closed | rewrite dispatchInput_year_closed];
    destruct F as [[] ni ns yi ys co di], t; reflexivity.
Qed.

Lemma value_onSubmit (t : field) (F : Form) :
  value (input t (onSubmit F)) = value (input t F).
Proof.
  rewrite onSubmit_closed, revalidated_closed.
  destruct F as [ws ni ns yi ys co di], t; reflexivity.
Qed.

Lemma value_step (t : field) (F : Form) (a : action) :
  value (input t (step F a))
  = match a with
    | Edit t' v => if field_eqb t t' then v else value (input t F)
    | Submit => value (input t F)
    end.
Proof.
  destruct a as [t' v|].
  - rewrite step_Edit_closed, value_dispatchInput.
    destruct F as [ws [nv n] ns [yv m] ys co di], t, t'; reflexivity.
  - rewrite step_Submit_closed. destruct (allValid F).
    + apply value_onSubmit.
    + destruct F as [ws ni ns yi ys co di], t; reflexivity.
Qed.

Lemma value_run (t : field) (l : list action) :
  value (input t (run initial l)) = typed t l.
Proof.
  induction l as [|a l IH] using rev_ind; [now destruct t|].
  rewrite run_snoc, value_step, IH. unfold typed.
  rewrite fold_left_app. reflexivity.
Qed.

(** X3. No handler writes to a field's value: dispatching [input] at
    either field and [onSubmit$] leave both values as they are, so after
    any run each field holds what was typed into it last (and the empty
    string when nothing was typed). *)
Theorem X3_values_change_by_typing_only :
  (forall (t t' : field) (F : Form),
     value (input t (dispatchInput t' F)) = value (input t F))
  /\
  (forall (t : field) (F : Form),
     value (input t (onSubmit F)) = value (input t F))
  /\
  (forall (t : field) (l : list action),
     value (input t (run initial l)) = typed t l).
Proof.
  split; [exact value_dispatchInput|].
  split; [exact value_onSubmit | exact value_run].
Qed.

(** X4. After any run, the stored messages are empty while the form was
    never submitted, and afterwards they are the messages of the rules on
    the values typed last: Name's on the last Name, Year's on the last Year
    and the last Name, whatever the order of the edits and submissions. *)
Theorem X4_messages_follow_typed_values (l : list action) :
  validationMessage (nameInput (run initial l))
  = (if wasSubmitted (run initial l)
     then Spec.name_message_regex (typed FName l)
     else [])
  /\
  validationMessage (yearInput (run initial l))
  = (if wasSubmitted (run initial l)
     then Spec.year_message (typed FYear l) (typed FName l)
     else []).
Proof.
  pose proof (upToDate_run l) as Hup. unfold upToDate in Hup.
  rewrite <- (value_run FName l), <- (value_run FYear l). cbn [input].
  destruct (wasSubmitted (run initial l)); exact Hup.
Qed.

Lemma console_step (F : Form) (a : action) :
  console (step F a)
  = console F ++
    match a with
    | Edit _ _ => []
    | Submit =>
        if allValid F && allValid (revalidated F) then [submissionOf F] else []
    end.
Proof.
  destruct a as [t v|].
  - rewrite console_step_Edit. now rewrite app_nil_r.
  - rewrite step_Submit_closed. destruct (allValid F); cbn [andb].
    + rewrite console_onSubmit.
      destruct (allValid (revalidated F)); now rewrite ?app_nil_r.
    + cbn. now rewrite app_nil_r.
Qed.

(** X5. The console only grows.  Typing never logs; a submission leaves
    the console as it is or appends the one record built from the current
    values (the Name as the form data holds it, with U+FFFD for every
    unpaired surrogate, and [Number] of the Year); a run appends to the
    console it started with, and at most as many records as it has
    submissions. *)
Theorem X5_console_only_grows :
  (forall (F : Form) (t : field) (v : jsstring),
     console (step F (Edit t v)) = console F)
  /\
  (forall F : Form,
     console (step F Submit) = console F \/
     console (step F Submit) = console F ++ [submissionOf F])
  /\
  (forall (F : Form) (l : list action),
     exists s : list submission,
       console (run F l) = console F ++ s /\
       (List.length s <= countSubmits l)%nat).
Proof.
  split; [exact console_step_Edit|]. split.
  - intros F. rewrite (console_step F Submit).
    destruct (_ && _); [now right | left; now rewrite app_nil_r].
  - intros F l. revert F. induction l as [|a l IH]; intros F.
    + exists []. split; [now rewrite app_nil_r | cbn; lia].
    + cbn [run fold_left]. destruct (IH (step F a)) as (s & Hs & Hlen).
      fold (run (step F a) l). rewrite Hs, console_step, <- app_assoc.
      eexists. split; [reflexivity|].
      rewrite length_app. unfold countSubmits in *. cbn [filter].
      destruct a as [t v|]; cbn [isSubmit List.length]; [cbn; lia|].
      destruct (_ && _); cbn; lia.
Qed.

Lemma revalidated_passesRules (F : Form) :
  allValid (revalidated F) = true -> passesRules (submissionOf F).
Proof.
  rewrite revalidated_closed. unfold allValid, valid. cbn.
  intros H. apply andb_true_iff in H as [Hn Hy].
  destruct (Spec.name_message_regex _) eqn:En; [|discriminate].
  destruct (Spec.year_message _ _) eqn:Ey; [|discriminate].
  rewrite name_message_regex_matches in En.
  apply year_message_valid_iff in Ey as (Hd & H2000 & Hnb).
  unfold passesRules, submissionOf. cbn [name year]. split.
  - apply matches_re_name_toScalarValueString.
    destruct (matches _ re_name); [reflexivity|discriminate].
  - exists (yearNumber (value (yearInput F))).
    split; [apply Number_digits, Hd|]. split; [assumption|].
    intros E. apply Hnb.
    apply (toScalarValueString_inv _ _ (eq_refl : forallb plainUnit (lit "Newborn") = true) E).
Qed.

(** X6. Every record that any run of the form logs passes the rules of
    both fields: its name matches [/^[A-Z].*$/], its year is the Number
    value of an integer that is at least 2000, and at least 2024 when the
    name is exactly "Newborn". *)
Theorem X6_logged_records_pass_rules (l : list action) (r : submission) :
  In r (console (run initial l)) -> passesRules r.
Proof.
  revert r.
  apply (run_invariant (fun F => forall r, In r (console F) -> passesRules r)).
  - intros r [].
  - intros F a IH r Hr. rewrite console_step in Hr.
    apply in_app_or in Hr as [Hr|Hr]; [auto|].
    destruct a as [t v|]; [destruct Hr|].
    destruct (allValid F); cbn [andb] in Hr; [|destruct Hr].
    destruct (allValid (revalidated F)) eqn:Hall; [|destruct Hr].
    destruct Hr as [<-|[]]. now apply revalidated_passesRules.
Qed.

Lemma X6_logged_records_pass_rules_witness :
  passesRules (mkSubmission (lit "Newborn") (ofN 2024)).
Proof.
  refine (X6_logged_records_pass_rules
            [Edit FName (lit "Newborn"); Edit FYear (lit "2024"); Submit]
            (mkSubmission (lit "Newborn") (ofN 2024)) _).
  vm_compute. left. reflexivity.
Defined.

(** X7. The [trim] test of the Name handler never decides: a value that
    matches [/^[A-Z].*$/] is not blank, so once the form was submitted the
    message stored by an [input] event on Name is empty exactly when the
    value matches the regular expression, and "Field is invalid"
    otherwise. *)
Theorem X7_name_validity_is_the_regex :
  (forall v : jsstring,
     matches v re_name = true -> Nat.eqb (List.length (trim v)) 0 = false)
  /\
  (forall F : Form,
     wasSubmitted F = true ->
     validationMessage (nameInput (dispatchInput FName F))
     = if matches (value (nameInput F)) re_name then [] else msg_invalid).
Proof.
  split.
  - intros v Hm. rewrite isEmpty_length. now apply matches_re_name_not_blank.
  - intros F Hws. rewrite dispatchInput_name_closed, Hws. cbn.
    apply name_message_regex_matches.
Qed.

Lemma X7_name_validity_is_the_regex_witness :
  validationMessage
    (nameInput (dispatchInput FName (setValue FName (lit " Alice") submittedEmpty)))
  = msg_invalid.
Proof.
  exact (proj2 X7_name_validity_is_the_regex
               (setValue FName (lit " Alice") submittedEmpty) eq_refl).
Defined.

(** X8. Once the form was submitted, the Year field is valid after an
    [input] event on it exactly when its value is one or more ASCII digits
    writing an integer of at least 2000, and of at least 2024 when the Name
    value is exactly "Newborn".  The comparisons of the handler are made on
    binary64 numbers; they agree with the comparisons of the integers. *)
Theorem X8_year_validity_in_integers (F : Form) :
  wasSubmitted F = true ->
  (valid FYear (dispatchInput FYear F) = true <->
   Spec.one_or_more_ascii_digits (value (yearInput F)) = true /\
   (2000 <= yearNumber (value (yearInput F)))%N /\
   (value (nameInput F) = lit "Newborn" ->
    (2024 <= yearNumber (value (yearInput F)))%N)).
Proof.
  intros Hws. rewrite dispatchInput_year_closed, Hws.
  unfold valid. cbn. rewrite <- year_message_valid_iff.
  destruct (Spec.year_message _ _); cbn; split; (reflexivity || discriminate).
Qed.

Lemma X8_year_validity_in_integers_witness :
  valid FYear (dispatchInput FYear
                 (setValue FYear (lit "2023")
                    (setValue FName (lit "Newborn") submittedEmpty)))
  = true <->
  Spec.one_or_more_ascii_digits (lit "2023") = true /\
  (2000 <= yearNumber (lit "2023"))%N /\
  (lit "Newborn" = lit "Newborn" -> (2024 <= yearNumber (lit "2023"))%N).
Proof.
  exact (X8_year_validity_in_integers
           (setValue FYear (lit "2023")
              (setValue FName (lit "Newborn") submittedEmpty)) eq_refl).
Defined.

(** X9. Name can change Year's message only for years from 2000 to 2023.
    Once submitted, two forms with the same Year value get the same Year
    message, whatever their Names, unless the value is a sequence of digits
    writing an integer from 2000 to 2023; and for such a value the message
    is "Newborn can not be born before 2024" when Name is exactly "Newborn"
    and empty otherwise. *)
Theorem X9_name_matters_from_2000_to_2023 :
  (forall F1 F2 : Form,
     wasSubmitted F1 = true -> wasSubmitted F2 = true ->
     value (yearInput F1) = value (yearInput F2) ->
     (Spec.one_or_more_ascii_digits (value (yearInput F1)) = true ->
      (yearNumber (value (yearInput F1)) < 2000)%N \/
      (2024 <= yearNumber (value (yearInput F1)))%N) ->
     validationMessage (yearInput (dispatchInput FYear F1))
     = validationMessage (yearInput (dispatchInput FYear F2)))
  /\
  (forall F : Form,
     wasSubmitted F = true ->
     Spec.one_or_more_ascii_digits (value (yearInput F)) = true ->
     (2000 <= yearNumber (value (yearInput F)) < 2024)%N ->
     validationMessage (yearInput (dispatchInput FYear F))
     = if streq (value (nameInput F)) (lit "Newborn") then msg_newborn else []).
Proof.
  split.
  - intros F1 F2 H1 H2 Hy Hout.
    rewrite !dispatchInput_year_closed, H1, H2. cbn. rewrite <- Hy.
    set (y := value (yearInput F1)) in *.
    destruct (Spec.one_or_more_ascii_digits y) eqn:Hd.
    + rewrite !(year_message_of_digits y _ Hd).
      unfold yearNumber in Hout.
      destruct (Hout eq_refl) as [Hlo|Hhi].
      * destruct (N.ltb_spec (digitsMV 10 y) 2000); [reflexivity|lia].
      * destruct (N.ltb_spec (digitsMV 10 y) 2000); [lia|].
        destruct (N.ltb_spec (digitsMV 10 y) 2024); [lia|].
        now rewrite !andb_false_r.
    + unfold Spec.year_message. rewrite Hd. reflexivity.
  - intros F Hws Hd [Hlo Hhi].
    rewrite dispatchInput_year_closed, Hws. cbn.
    rewrite (year_message_of_digits _ _ Hd). unfold yearNumber in *.
    destruct (N.ltb_spec (digitsMV 10 (value (yearInput F))) 2000); [lia|].
    destruct (N.ltb_spec (digitsMV 10 (value (yearInput F))) 2024); [|lia].
    now rewrite andb_true_r.
Qed.

Lemma X9_name_matters_from_2000_to_2023_witness :
  validationMessage
    (yearInput (dispatchInput FYear
                  (setValue FYear (lit "2010")
                     (setValue FName (lit "Newborn") submittedEmpty))))
  = msg_newborn.
Proof.
  refine (proj2 X9_name_matters_from_2000_to_2023
            (setValue FYear (lit "2010")
               (setValue FName (lit "Newborn") submittedEmpty))
            eq_refl eq_refl _).
  split; [discriminate | reflexivity].
Defined.

Lemma year_message_accepts (y n : jsstring) :
  isEmpty (Spec.year_message y n)
  = Spec.one_or_more_ascii_digits y
    && N.leb 2000 (yearNumber y)
    && (negb (streq n (lit "Newborn")) || N.leb 2024 (yearNumber y)).
Proof.
  destruct (Spec.one_or_more_ascii_digits y) eqn:Hd.
  - rewrite (year_message_of_digits y n Hd). unfold yearNumber. cbn [andb].
    rewrite !N.leb_antisym.
    destruct (N.ltb (digitsMV 10 y) 2000); [reflexivity|].
    destruct (streq n (lit "Newborn")); [|reflexivity].
    now destruct (N.ltb (digitsMV 10 y) 2024).
  - unfold Spec.year_message. rewrite Hd.
    now destruct (Spec.trimmed_empty y).
Qed.

Lemma allValid_revalidated_accepts (F : Form) :
  allValid (revalidated F)
  = accepts (value (nameInput F)) (value (yearInput F)).
Proof.
  rewrite revalidated_closed. unfold allValid, valid, accepts. cbn.
  rewrite year_message_accepts, name_message_regex_matches, !andb_assoc.
  now destruct (matches _ re_name).
Qed.

Lemma allValid_run (l : list action) :
  allValid (run initial l) = false -> allValid (revalidated (run initial l)) = false.
Proof.
  pose proof (upToDate_run l) as Hup.
  set (F := run initial l) in *. intros Hok.
  rewrite revalidated_closed. unfold allValid, valid in *. cbn in *.
  unfold upToDate in Hup.
  destruct (wasSubmitted F).
  - destruct Hup as [<- <-]. exact Hok.
  - destruct Hup as [Hn Hy]. rewrite Hn, Hy in Hok. discriminate.
Qed.

Lemma typed_snoc_Submit (t : field) (l : list action) :
  typed t (l ++ [Submit]) = typed t l.
Proof. unfold typed. now rewrite fold_left_app. Qed.

Lemma console_Submit_run (l : list action) :
  console (step (run initial l) Submit)
  = console (run initial l)
    ++ (if accepts (typed FName l) (typed FYear l)
        then [mkSubmission (toScalarValueString (typed FName l))
                          (ofN (yearNumber (typed FYear l)))]
        else []).
Proof.
  rewrite console_step. f_equal.
  rewrite <- (value_run FName l), <- (value_run FYear l). cbn [input].
  set (F := run initial l).
  rewrite <- allValid_revalidated_accepts.
  destruct (allValid F) eqn:Hok; cbn [andb].
  - destruct (allValid (revalidated F)) eqn:Hall; [|reflexivity].
    unfold submissionOf. f_equal. f_equal.
    rewrite allValid_revalidated_accepts in Hall. unfold accepts in Hall.
    apply andb_true_iff in Hall as [Hall _].
    apply andb_true_iff in Hall as [Hall _].
    apply andb_true_iff in Hall as [_ Hd].
    apply Number_digits, Hd.
  - subst F. now rewrite (allValid_run l Hok).
Qed.

(** X10. Whether a submission by the user logs a record depends only on
    the values typed last, not on what was typed or submitted before: it
    appends the record of those values (the Name with U+FFFD for every
    unpaired surrogate, as the form data holds it, and the integer that
    the Year writes) when Name matches the regular expression and Year is
    digits writing an integer of at least 2000 (2024 for "Newborn"), and
    nothing otherwise.  The form is not reset by a submission: submitting
    twice in a row logs the record twice. *)
Theorem X10_submission_depends_on_typed_values (l : list action) :
  console (step (run initial l) Submit)
  = console (run initial l)
    ++ (if accepts (typed FName l) (typed FYear l)
        then [mkSubmission (toScalarValueString (typed FName l))
                          (ofN (yearNumber (typed FYear l)))]
        else [])
  /\
  console (run initial (l ++ [Submit; Submit]))
  = console (run initial l)
    ++ (if accepts (typed FName l) (typed FYear l)
        then [mkSubmission (toScalarValueString (typed FName l))
                           (ofN (yearNumber (typed FYear l)));
              mkSubmission (toScalarValueString (typed FName l))
                           (ofN (yearNumber (typed FYear l)))]
        else []).
Proof.
  split; [apply console_Submit_run|].
  change [Submit; Submit] with ([Submit] ++ [Submit]).
  rewrite app_assoc, run_snoc, console_Submit_run, !typed_snoc_Submit.
  rewrite run_snoc, console_Submit_run, <- app_assoc.
  now destruct (accepts _ _).
Qed.


(** X12. The events of one run of [onSubmit$], in order: [input] at Name,
    [invalid] at Name if it is invalid, [input] at Year and [invalid] at
    Year if it is invalid, the same pair at Year again, and then the
    [invalid] events of [checkValidity].  So the Year handler runs twice,
    and [onInvalid$] runs twice for an invalid Name and three times for an
    invalid Year. *)
Theorem X12_events_of_a_submission (F : Form) :
  dispatched (onSubmit F)
  = dispatched F
      ++ (FName, EInput)
         :: invalidEvent FName (validationMessage (nameInput (onSubmit F)))
      ++ (FYear, EInput)
         :: invalidEvent FYear (validationMessage (yearInput (onSubmit F)))
      ++ (FYear, EInput)
         :: invalidEvent FYear (validationMessage (yearInput (onSubmit F)))
      ++ invalidEvent FName (validationMessage (nameInput (onSubmit F)))
      ++ invalidEvent FYear (validationMessage (yearInput (onSubmit F))).
Proof.
  rewrite onSubmit_closed, revalidated_closed.
  destruct F as [ws [nv n0] ns [yv m0] ys co di]. cbn.
  generalize (Spec.name_message_regex nv) as n.
  generalize (Spec.year_message yv nv) as m.
  intros [|c m] [|d n]; cbn; rewrite <- ?app_assoc; reflexivity.
Qed.

(** ** The page with deferred handlers *)

Lemma shownOrScheduled_record (t : field) (e : eventType) (P : Lazy.Page) :
  shownOrScheduled P -> shownOrScheduled (Lazy.onForm (record t e) P).
Proof. intros H t'. specialize (H t'). destruct P as [F q], F, t'; exact H. Qed.

Lemma shownOrScheduled_setValue (t : field) (v : jsstring) (P : Lazy.Page) :
  shownOrScheduled P -> shownOrScheduled (Lazy.onForm (setValue t v) P).
Proof.
  intros H t'. specialize (H t').
  destruct P as [F q], F as [ws [nv n] ns [yv m] ys co di], t, t'; exact H.
Qed.

Lemma shownOrScheduled_fireInvalid (t : field) (P : Lazy.Page) :
  shownOrScheduled P -> shownOrScheduled (Lazy.fireInvalid t P).
Proof.
  intros H t' Ht'. destruct (H t') as [Hs|Hq].
  - destruct P as [F q], F, t, t'; exact Ht'.
  - left. destruct P as [F q], F, t, t'; exact Hs.
  - right. destruct P as [F q]. cbn in *. apply in_or_app. now left.
Qed.

(** Storing a message and reporting validity. *)
Lemma shownOrScheduled_validate (t : field) (msg : jsstring) (P : Lazy.Page) :
  shownOrScheduled P ->
  shownOrScheduled
    (Lazy.reportValidity t (Lazy.onForm (setCustomValidity t msg) P)).
Proof.
  intros H t' Ht'.
  pose proof (H t') as Ht.
  destruct P as [F q], F as [ws [nv n] ns [yv m] ys co di].
  unfold Lazy.reportValidity, Lazy.fireInvalid, Lazy.schedule, Lazy.onForm, valid in *.
  destruct t, t', msg; cbn in *; try discriminate;
    try (right; apply in_or_app; right; now left);
    try (destruct (Ht Ht') as [Hs|Hq]; [now left | right; try apply in_or_app; auto]).
Qed.

Lemma shownOrScheduled_year_onInput (P : Lazy.Page) :
  shownOrScheduled P -> shownOrScheduled (Lazy.year_onInput P).
Proof.
  intros H. unfold Lazy.year_onInput.
  destruct (negb (wasSubmitted (Lazy.form P))); [exact H|].
  repeat match goal with
         | |- shownOrScheduled (if ?b then _ else _) => destruct b
         end;
    now apply shownOrScheduled_validate.
Qed.

Lemma shownOrScheduled_dispatchInput (t : field) (P : Lazy.Page) :
  shownOrScheduled P -> shownOrScheduled (Lazy.dispatchInput t P).
Proof.
  intros H. destruct t; cbn [Lazy.dispatchInput].
  - unfold Lazy.name_onInput.
    destruct (negb (wasSubmitted _)); [now apply shownOrScheduled_record|].
    unfold Lazy.dispatchInput_year.
    apply shownOrScheduled_year_onInput, shownOrScheduled_record.
    destruct (_ || _); apply shownOrScheduled_validate;
      now apply shownOrScheduled_record.
  - unfold Lazy.dispatchInput_year.
    now apply shownOrScheduled_year_onInput, shownOrScheduled_record.
Qed.

Lemma shownOrScheduled_checkValidity (P : Lazy.Page) :
  shownOrScheduled P -> shownOrScheduled (snd (Lazy.checkValidity P)).
Proof.
  intros H. unfold Lazy.checkValidity. cbn [snd].
  generalize (filter (fun t => negb (valid t (Lazy.form P))) [FName; FYear]).
  intros l. revert P H. induction l as [|t l IH]; intros P H; [exact H|].
  cbn [fold_left]. now apply IH, shownOrScheduled_fireInvalid.
Qed.

Lemma shownOrScheduled_onSubmit (P : Lazy.Page) :
  shownOrScheduled P -> shownOrScheduled (Lazy.onSubmit P).
Proof.
  intros H. unfold Lazy.onSubmit, querySelectorAll_input. cbn [fold_left].
  set (P2 := Lazy.dispatchInput FYear _).
  assert (H2 : shownOrScheduled P2).
  { apply shownOrScheduled_dispatchInput, shownOrScheduled_dispatchInput.
    intros t. specialize (H t). destruct P as [F q], F, t; exact H. }
  pose proof (shownOrScheduled_checkValidity P2 H2) as H3.
  destruct (Lazy.checkValidity P2) as [ok P3]. cbn [snd] in H3.
  destruct (negb ok); [exact H3|].
  destruct (get _ _); [|exact H3]. destruct (get _ _); [|exact H3].
  intros t. specialize (H3 t). destruct P3 as [F q], F, t; exact H3.
Qed.

(** Taking a scheduled run off the list keeps the other runs. *)
Lemma In_removeNth (k : nat) (l : list Lazy.handlerRun) (r x : Lazy.handlerRun) :
  nth_error l k = Some r -> In x l -> x = r \/ In x (Lazy.removeNth k l).
Proof.
  revert l. induction k as [|k IH]; intros [|y l] Hk Hx; try discriminate.
  - cbn in Hk. injection Hk as ->. destruct Hx as [->|Hx]; [now left|now right].
  - cbn in Hk. destruct Hx as [->|Hx].
    + right. now left.
    + destruct (IH l Hk Hx) as [->|H]; [now left|]. right. now right.
Qed.

Lemma shownOrScheduled_step (P : Lazy.Page) (o : Lazy.occurrence) :
  shownOrScheduled P -> shownOrScheduled (Lazy.step P o).
Proof.
  intros H. destruct o as [t v| |k]; cbn [Lazy.step].
  - now apply shownOrScheduled_dispatchInput, shownOrScheduled_setValue.
  - pose proof (shownOrScheduled_checkValidity P H) as H1.
    destruct (Lazy.checkValidity P) as [ok P1]. cbn [snd] in H1.
    destruct ok; [|exact H1].
    intros t Ht. destruct (H1 t Ht) as [Hs|Hq]; [now left|right].
    cbn. apply in_or_app. now left.
  - destruct (nth_error (Lazy.scheduled P) k) as [r|] eqn:Hk; [|exact H].
    destruct r as [t'|].
    + intros t Ht. cbn [Lazy.runHandler].
      destruct (H t) as [Hs|Hq].
      * destruct P as [F q], F, t', t; exact Ht.
      * left. destruct P as [F q], F as [ws [nv n] ns [yv m] ys co di], t', t;
          cbn in *; auto.
      * destruct (In_removeNth k _ _ _ Hk Hq) as [E|Hin].
        -- injection E as <-. left.
           destruct P as [F q], F as [ws [nv n] ns [yv m] ys co di], t; reflexivity.
        -- destruct P as [F q], F as [ws [nv n] ns [yv m] ys co di], t', t;
             cbn in *; auto.
    + cbn [Lazy.runHandler]. apply shownOrScheduled_onSubmit.
      intros t Ht. destruct (H t Ht) as [Hs|Hq]; [now left|right].
      destruct (In_removeNth k _ _ _ Hk Hq) as [E|Hin]; [discriminate|exact Hin].
Qed.

(** X1. [onInvalid$] is a lazy handler, so the span under a field can lag
    behind the field's message while a run of the handler is scheduled.
    In every state the page can reach, with the runs of the lazy handlers
    happening at any later moment and in any order, a field for which no
    run of [onInvalid$] is scheduled has its span visible exactly when its
    message is not empty, and the span's text is then that message. *)
Theorem X1_settled_span_shows_current_message
  (l : list Lazy.occurrence) (t : field) :
  ~ In (Lazy.RunOnInvalid t) (Lazy.scheduled (Lazy.run Lazy.initial l)) ->
  displayed t (Lazy.form (Lazy.run Lazy.initial l))
  = if isEmpty (validationMessage (input t (Lazy.form (Lazy.run Lazy.initial l))))
    then None
    else Some (validationMessage (input t (Lazy.form (Lazy.run Lazy.initial l)))).
Proof.
  assert (H : shownOrScheduled (Lazy.run Lazy.initial l)).
  { induction l as [|o l IH] using rev_ind.
    - intros t' Ht'. destruct t'; discriminate.
    - unfold Lazy.run. rewrite fold_left_app. cbn [fold_left].
      apply shownOrScheduled_step, IH. }
  intros Hq. specialize (H t). unfold displayed.
  destruct (valid t _) eqn:Hv.
  - unfold valid in Hv. now rewrite Hv.
  - destruct (H eq_refl) as [Hs|Hin]; [|contradiction].
    unfold valid in Hv. now rewrite Hv, Hs.
Qed.

Lemma X1_settled_span_shows_current_message_witness :
  displayed FName (Lazy.form (Lazy.run Lazy.initial firstRejection))
  = Some (lit "Field is invalid").
Proof.
  exact (X1_settled_span_shows_current_message firstRejection FName
           (fun H => H)).
Defined.

(** While the runs scheduled by the first rejected submission have not
    happened, Name is invalid and its visible span still holds the
    no-break space of the markup; a run that happens after the user has
    typed a valid Name leaves the (hidden) span empty. *)
Example span_lags_while_scheduled :
  displayed FName (Lazy.form (Lazy.run Lazy.initial [Lazy.Presses; Lazy.Runs 0]))
  = Some [160%N]
  /\ validationMessage
       (nameInput (Lazy.form (Lazy.run Lazy.initial [Lazy.Presses; Lazy.Runs 0])))
     = lit "Field is invalid"
  /\ nameSpan (Lazy.form (Lazy.run Lazy.initial
                            [Lazy.Presses; Lazy.Runs 0;
                             Lazy.Types FName (lit "Alice"); Lazy.Runs 0]))
     = [].
Proof.
  split; [vm_compute; reflexivity|].
  split; vm_compute; reflexivity.
Qed.
